(** * fc.py -- the Firecrawl command-line wrapper, embedded and verified

    The script is a thin dispatcher: it checks a credential, parses a
    subcommand, performs one call to the hosted scraping service and turns
    the response into text on standard output or files on disk.

    The embedding is shallow.  Python values become Rocq values
    ([str] is [string], [bytes] is [list byte], [Optional[T]] is [option T]),
    and the process is a state-and-exception monad over a [World] that holds
    the environment, the file system, both output streams and a log of the
    network calls made so far.  Code that is not part of the script (the
    service client, [argparse], [json], [base64], the remote host behind
    [urlretrieve]) is gathered in the record [Externals] and left arbitrary. *)

From Stdlib Require Import ZArith String Ascii List Bool Lia.
From Stdlib Require Import Strings.Byte Decimal DecimalNat DecimalString.
From stdpp Require Import base gmap sets list strings.

Local Open Scope Z_scope.

(** The line terminator written by [print]. *)
Definition nl : string := String "010"%char EmptyString.

(** ** Python strings *)

Module Py.

(** [s.startswith(p)] *)
Definition startswith (s p : string) : bool := String.prefix p s.

(** [len(s)] *)
Definition len (s : string) : nat := String.length s.

(** [s[:n]] *)
Definition take (n : nat) (s : string) : string := String.substring 0 n s.

(** [str(n)] for a non-negative integer. *)
Definition str_of_nat (n : nat) : string :=
  NilEmpty.string_of_uint (Nat.to_uint n).

Fixpoint zeros (n : nat) : string :=
  match n with
  | O => ""
  | S k => String "0" (zeros k)
  end.

(** [f"{n:03d}"]: decimal, padded on the left with zeros to width 3;
    wider numbers are printed in full. *)
Definition fmt_03d (n : nat) : string :=
  let s := str_of_nat n in
  zeros (3 - String.length s) +:+ s.

(** [f"{v}"] for an [Optional[str]]: [None] is rendered as the word. *)
Definition str_of_opt (v : option string) : string :=
  match v with
  | Some s => s
  | None => "None"
  end.

(** Truth value of an [Optional[str]]: [None] and [""] are false. *)
Definition truthy (v : option string) : bool :=
  match v with
  | Some (String _ _) => true
  | _ => false
  end.

(** [v or d] for an [Optional[str]] [v] and a [str] [d]. *)
Definition or_str (v : option string) (d : string) : string :=
  match v with
  | Some (String c s) => String c s
  | _ => d
  end.

(** [v or []] for an [Optional[list]] [v]. *)
Definition or_nil {A} (v : option (list A)) : list A :=
  match v with
  | Some (x :: l) => x :: l
  | _ => []
  end.

(** [s.split(",", 1)]: the text before the first comma and, when there is
    a comma, the text after it. *)
Fixpoint split_comma (s : string) : string * option string :=
  match s with
  | EmptyString => (EmptyString, None)
  | String c r =>
      if Ascii.eqb c ","%char then (EmptyString, Some r)
      else let '(a, b) := split_comma r in (String c a, b)
  end.

(** [enumerate(l)] *)
Fixpoint enumerate_from {A} (i : nat) (l : list A) : list (nat * A) :=
  match l with
  | [] => []
  | x :: r => (i, x) :: enumerate_from (S i) r
  end.

Definition enumerate {A} (l : list A) : list (nat * A) := enumerate_from 0 l.

End Py.

(** ** Values exchanged with the service *)

(** A JSON document; numbers are kept as their lexeme. *)
#[local] Unset Elimination Schemes.
Inductive Json :=
| JNull
| JBool (b : bool)
| JNum (lexeme : string)
| JStr (s : string)
| JArr (items : list Json)
| JObj (fields : list (string * Json)).
#[local] Set Elimination Schemes.

Record Metadata := { title : option string }.

(** The document returned by a scrape, and each page of a crawl. *)
Record Document := {
  markdown : option string;
  screenshot : option string;
  json : Json;
  metadata : option Metadata
}.

Record SearchResult := {
  sr_title : option string;
  sr_url : string;
  sr_description : option string
}.

Record SearchData := { web : option (list SearchResult) }.

Record CrawlJob := { data : list Document }.

(** One entry of the [formats] argument of a scrape: a format name, or the
    dictionary [{"type": "json", "schema": ..., "prompt": ...}] whose
    ["prompt"] key may be missing. *)
Inductive Format :=
| FmtName (name : string)
| FmtJson (schema : Json) (prompt : option string).

(** What the script hands to the client library.  [only_main_content] is
    [None] when the keyword is passed as [None], that is, left out of the
    request. *)
Inductive Request :=
| ReqScrape (url : string) (formats : list Format) (only_main_content : option bool)
| ReqSearch (query : string) (limit : Z)
| ReqCrawl (url : string) (limit : Z) (crawl_formats : list string) (onlyMainContent : bool)
| ReqFetch (url : string).

(** ** Exceptions and process outcomes *)

Inductive exn :=
| AttributeError
| IndexError
| FileNotFoundError
| FileExistsError
| IsADirectoryError
| NotADirectoryError
| JSONDecodeError
| BinasciiError
| RemoteError (what : string).

Inductive outcome (A : Type) :=
| Ret (a : A)
| Raise (e : exn)
| Exit (code : Z).
Arguments Ret {A} a.
Arguments Raise {A} e.
Arguments Exit {A} code.

(** The status the operating system sees: an uncaught exception ends the
    interpreter with status 1. *)
Definition exit_code {A} (o : outcome A) : Z :=
  match o with
  | Ret _ => 0
  | Raise _ => 1
  | Exit c => c
  end.

(** ** The world *)

Record World := {
  w_env : gmap string string;
  w_files : gmap string (list byte);
  w_dirs : gset string;
  w_stdout : string;
  w_stderr : string;
  w_net : list Request
}.

Definition M (A : Type) : Type := World -> outcome A * World.

Definition ret {A} (a : A) : M A := fun w => (Ret a, w).

Definition bind {A B} (m : M A) (k : A -> M B) : M B :=
  fun w =>
    match m w with
    | (Ret a, w') => k a w'
    | (Raise e, w') => (Raise e, w')
    | (Exit c, w') => (Exit c, w')
    end.

Definition raise {A} (e : exn) : M A := fun w => (Raise e, w).

(** [sys.exit(code)] *)
Definition sys_exit {A} (code : Z) : M A := fun w => (Exit code, w).

Declare Scope py_scope.
Delimit Scope py_scope with py.
Notation "x <- m ;; k" := (bind m (fun x => k))
  (at level 100, m at next level, right associativity) : py_scope.
Notation "m ;; k" := (bind m (fun _ => k))
  (at level 100, right associativity) : py_scope.
Local Open Scope py_scope.

(** [for x in l: body(x)] *)
Fixpoint for_each {A} (l : list A) (body : A -> M unit) : M unit :=
  match l with
  | [] => ret tt
  | x :: r => body x ;; for_each r body
  end.

(** [os.getenv(name)] *)
Definition getenv (name : string) : M (option string) :=
  fun w => (Ret (w_env w !! name), w).

(** [print(s)] *)
Definition print (s : string) : M unit :=
  fun w => (Ret tt,
    {| w_env := w_env w; w_files := w_files w; w_dirs := w_dirs w;
       w_stdout := w_stdout w +:+ s +:+ nl; w_stderr := w_stderr w; w_net := w_net w |}).

(** [print(s, file=sys.stderr)] *)
Definition eprint (s : string) : M unit :=
  fun w => (Ret tt,
    {| w_env := w_env w; w_files := w_files w; w_dirs := w_dirs w;
       w_stdout := w_stdout w; w_stderr := w_stderr w +:+ s +:+ nl; w_net := w_net w |}).

(** A call leaves the process: it is appended to the log. *)
Definition sent (r : Request) : M unit :=
  fun w => (Ret tt,
    {| w_env := w_env w; w_files := w_files w; w_dirs := w_dirs w;
       w_stdout := w_stdout w; w_stderr := w_stderr w;
       w_net := w_net w ++ [r] |}).

(** ** The file system

    Paths are the strings the script passes to the operating system.  A
    path names a regular file (a key of [w_files]), a directory (an element
    of [w_dirs]) or nothing.  The empty directory name stands for the
    current directory or the root, which always exist. *)

Module Fs.

Definition has_slash (p : string) : bool :=
  existsb (Ascii.eqb "/"%char) (list_ascii_of_string p).

(** The text before the last slash; empty when there is none. *)
Fixpoint dirname (p : string) : string :=
  match p with
  | EmptyString => EmptyString
  | String c r => if has_slash r then String c (dirname r) else EmptyString
  end.

(** Every prefix of [p] that ends just before a slash. *)
Fixpoint prefixes (p : string) : list string :=
  match p with
  | EmptyString => []
  | String c r =>
      (if Ascii.eqb c "/"%char then [EmptyString] else [])
        ++ map (String c) (prefixes r)
  end.

(** [Path(p).parents], nearest last, without the empty name. *)
Definition parents (p : string) : list string :=
  filter (fun d => d <> EmptyString) (prefixes p).

Definition is_file (w : World) (p : string) : bool :=
  bool_decide (is_Some (w_files w !! p)).

Definition is_dir (w : World) (p : string) : bool :=
  bool_decide (p = EmptyString) || bool_decide (p ∈ w_dirs w).

Definition set_files (f : gmap string (list byte)) (w : World) : World :=
  {| w_env := w_env w; w_files := f; w_dirs := w_dirs w;
     w_stdout := w_stdout w; w_stderr := w_stderr w; w_net := w_net w |}.

Definition set_dirs (d : gset string) (w : World) : World :=
  {| w_env := w_env w; w_files := w_files w; w_dirs := d;
     w_stdout := w_stdout w; w_stderr := w_stderr w; w_net := w_net w |}.

(** [Path(p).mkdir(parents=True, exist_ok=True)]: afterwards [p] and all
    its parents are directories; nothing happens to those that already
    are.  It fails when one of them is a regular file. *)
Definition mkdir_parents_exist_ok (p : string) : M unit :=
  fun w =>
    if existsb (is_file w) (parents p) then (Raise NotADirectoryError, w)
    else if is_file w p then (Raise FileExistsError, w)
    else (Ret tt, set_dirs (w_dirs w ∪ list_to_set (parents p) ∪ {[ p ]}) w).

(** [open(p)] followed by reading the whole file as text. *)
Definition read_text (p : string) : M string :=
  fun w =>
    match w_files w !! p with
    | Some c => (Ret (string_of_list_byte c), w)
    | None =>
        if bool_decide (p ∈ w_dirs w) then (Raise IsADirectoryError, w)
        else (Raise FileNotFoundError, w)
    end.

(** [open(p, "w")] and [open(p, "wb")]: the file is created or emptied. *)
Definition open_write (p : string) : M unit :=
  fun w =>
    if bool_decide (p = EmptyString) then (Raise FileNotFoundError, w)
    else if bool_decide (p ∈ w_dirs w) then (Raise IsADirectoryError, w)
    else if is_file w (dirname p) then (Raise NotADirectoryError, w)
    else if is_dir w (dirname p) then (Ret tt, set_files (<[ p := [] ]> (w_files w)) w)
    else (Raise FileNotFoundError, w).

(** [f.write(bytes)] on a file opened for writing. *)
Definition write (p : string) (b : list byte) : M unit :=
  fun w => (Ret tt, set_files (alter (fun old => old ++ b) p (w_files w)) w).

(** [mkdir] succeeds when neither [p] nor one of its parents is a
    regular file. *)
Definition can_mkdir (w : World) (p : string) : bool :=
  negb (existsb (is_file w) (parents p)) && negb (is_file w p).

(** [open(p, "w")] succeeds when [p] is a name, it is not a directory,
    and the directory it lies in exists. *)
Definition can_write (w : World) (p : string) : bool :=
  negb (bool_decide (p = EmptyString))
  && negb (bool_decide (p ∈ w_dirs w))
  && negb (is_file w (dirname p))
  && is_dir w (dirname p).

End Fs.

(** ** Code outside the script *)

(** [argparse.Namespace] after [parse_args]: the subcommand chosen and the
    attributes its parser declares. *)
Inductive Namespace :=
| NsMarkdown (url : string) (main_only : bool)
| NsScreenshot (url : string) (output : option string)
| NsExtract (url schema : string) (prompt : option string)
| NsSearch (query : string) (limit : Z)
| NsCrawl (url : string) (limit : Z) (output : option string).

(** [parse_args] either returns a namespace or ends the process itself
    (usage error, [--help]) after writing to the streams. *)
Inductive ParseResult :=
| Parsed (ns : Namespace)
| ParseExit (code : Z) (out err : string).

Record Externals := {
  (** the parser configured at lines 86 to 114, applied to [sys.argv[1:]] *)
  parse_args : list string -> ParseResult;
  (** the service behind [Firecrawl().scrape], [.search] and [.crawl];
      the first argument is the credential the client finds in the
      environment *)
  svc_scrape : option string -> Request -> exn + Document;
  svc_search : option string -> Request -> exn + SearchData;
  svc_crawl : option string -> Request -> exn + CrawlJob;
  (** the remote host read by [urllib.request.urlretrieve] *)
  url_fetch : string -> exn + list byte;
  (** [json.loads], [json.dumps(_, indent=2)] and [base64.b64decode] *)
  json_loads : string -> option Json;
  json_dumps : Json -> string;
  b64decode : string -> option (list byte)
}.

(** ** The script *)

Section Script.

Context (ext : Externals).

(** [Firecrawl()]: the client picks the credential up from the
    environment by itself. *)
Definition Firecrawl : M (option string) := getenv "FIRECRAWL_API_KEY".

(** One round trip to the service: the request is sent, then the answer
    comes back or the client raises. *)
Definition call {A} (svc : option string -> Request -> exn + A)
    (app : option string) (r : Request) : M A :=
  sent r ;;
  match svc app r with
  | inl e => raise e
  | inr a => ret a
  end.

(** [urllib.request.urlretrieve(url, filename)]: the resource is fetched
    first, then the file is opened and the body written. *)
Definition urlretrieve (url filename : string) : M unit :=
  sent (ReqFetch url) ;;
  match url_fetch ext url with
  | inl e => raise e
  | inr body => Fs.open_write filename ;; Fs.write filename body
  end.

(** [parser.parse_args()] *)
Definition argparse (argv : list string) : M Namespace :=
  fun w =>
    match parse_args ext argv with
    | Parsed ns => (Ret ns, w)
    | ParseExit code out err =>
        (Exit code,
         {| w_env := w_env w; w_files := w_files w; w_dirs := w_dirs w;
            w_stdout := w_stdout w +:+ out; w_stderr := w_stderr w +:+ err;
            w_net := w_net w |})
    end.

(** lines 14-22 *)
Definition scrape_markdown (url : string) (only_main : bool) : M (option string) :=
  app <- Firecrawl ;;
  result <- call (svc_scrape ext) app
    (ReqScrape url [FmtName "markdown"]
       (if only_main then Some only_main else None)) ;;
  ret (markdown result).

(** lines 25-48 *)
Definition take_screenshot (url : string) (output_path : option string) : M string :=
  app <- Firecrawl ;;
  result <- call (svc_scrape ext) app (ReqScrape url [FmtName "screenshot"] None) ;;
  match screenshot result with
  | None => raise AttributeError
  | Some screenshot_data =>
      if Py.startswith screenshot_data "http://"
         || Py.startswith screenshot_data "https://" then
        match output_path with
        | Some (String _ _ as path) =>
            urlretrieve screenshot_data path ;;
            ret ("Screenshot saved to " +:+ path)
        | _ => ret ("[Screenshot URL: " +:+ screenshot_data +:+ "]")
        end
      else
        screenshot_data <-
          (if Py.startswith screenshot_data "data:image" then
             match snd (Py.split_comma screenshot_data) with
             | Some rest => ret rest
             | None => raise IndexError
             end
           else ret screenshot_data) ;;
        match output_path with
        | Some (String _ _ as path) =>
            Fs.open_write path ;;
            decoded <- match b64decode ext screenshot_data with
                       | Some b => ret b
                       | None => raise BinasciiError
                       end ;;
            Fs.write path decoded ;;
            ret ("Screenshot saved to " +:+ path)
        | _ =>
            ret ("[Screenshot: " +:+ Py.str_of_nat (Py.len screenshot_data)
                   +:+ " bytes base64]")
        end
  end.

(** lines 51-60 *)
Definition extract_data (url : string) (schema : Json) (prompt : option string) : M Json :=
  app <- Firecrawl ;;
  let format_spec := FmtJson schema (if Py.truthy prompt then prompt else None) in
  result <- call (svc_scrape ext) app (ReqScrape url [format_spec] None) ;;
  ret (json result).

(** lines 63-67 *)
Definition search_web (query : string) (limit : Z) : M (list SearchResult) :=
  app <- Firecrawl ;;
  results <- call (svc_search ext) app (ReqSearch query limit) ;;
  ret (Py.or_nil (web results)).

(** lines 70-78 *)
Definition crawl_docs (url : string) (limit : Z) : M (list Document) :=
  app <- Firecrawl ;;
  result <- call (svc_crawl ext) app (ReqCrawl url limit ["markdown"] true) ;;
  ret (data result).

(** The body of the search loop, lines 136-139. *)
Definition print_result (r : SearchResult) : M unit :=
  print ("## " +:+ Py.str_of_opt (sr_title r)) ;;
  print ("URL: " +:+ sr_url r) ;;
  print (Py.or_str (sr_description r) "No description") ;;
  print (nl +:+ "---" +:+ nl).

(** The body of the crawl loop that writes files, lines 147-149. *)
Definition page_filename (out : string) (i : nat) : string :=
  out +:+ "/page_" +:+ Py.fmt_03d i +:+ ".md".

Definition save_page (out : string) (ip : nat * Document) : M unit :=
  let filename := page_filename out (fst ip) in
  Fs.open_write filename ;;
  Fs.write filename (list_byte_of_string (Py.or_str (markdown (snd ip)) "")).

(** The body of the crawl loop that prints, lines 153-156. *)
Definition print_page (page : Document) : M unit :=
  let title :=
    match metadata page with
    | Some m => title m
    | None => Some "Untitled"
    end in
  print ("## " +:+ Py.str_of_opt title) ;;
  print (match markdown page with
         | Some (String _ _ as md) => Py.take 1000 md
         | _ => ""
         end) ;;
  print (nl +:+ "---" +:+ nl).

(** lines 119-156 *)
Definition dispatch (args : Namespace) : M unit :=
  match args with
  | NsMarkdown url main_only =>
      content <- scrape_markdown url main_only ;;
      print (Py.str_of_opt content)
  | NsScreenshot url output =>
      result <- take_screenshot url output ;;
      print result
  | NsExtract url schema_path prompt =>
      text <- Fs.read_text schema_path ;;
      schema <- match json_loads ext text with
                | Some j => ret j
                | None => raise JSONDecodeError
                end ;;
      data <- extract_data url schema prompt ;;
      print (json_dumps ext data)
  | NsSearch query limit =>
      results <- search_web query limit ;;
      for_each results print_result
  | NsCrawl url limit output =>
      pages <- crawl_docs url limit ;;
      match output with
      | Some (String _ _ as out) =>
          Fs.mkdir_parents_exist_ok out ;;
          for_each (Py.enumerate pages) (save_page out) ;;
          print ("Saved " +:+ Py.str_of_nat (length pages)
                   +:+ " pages to " +:+ out +:+ "/")
      | _ => for_each pages print_page
      end
  end.

(** lines 81-156 *)
Definition main (argv : list string) : M unit :=
  key <- getenv "FIRECRAWL_API_KEY" ;;
  (if negb (Py.truthy key) then
     eprint "FIRECRAWL_API_KEY not set in environment." ;;
     sys_exit 1
   else ret tt) ;;
  args <- argparse argv ;;
  dispatch args.

End Script.

(** ** Substitutes for the code outside the script

    Small stand-ins with which the script can be run: a decoder for the
    standard base64 alphabet, a parser for the plain forms of the command
    line, and a service whose answers are fixed in advance. *)

Module Base64.

(** The value of a character of the standard alphabet. *)
Definition sextet (c : ascii) : option N :=
  let n := N_of_ascii c in
  if (65 <=? n)%N && (n <=? 90)%N then Some (n - 65)%N
  else if (97 <=? n)%N && (n <=? 122)%N then Some (n - 71)%N
  else if (48 <=? n)%N && (n <=? 57)%N then Some (n + 4)%N
  else if (n =? 43)%N then Some 62%N
  else if (n =? 47)%N then Some 63%N
  else None.

Definition octet (n : N) : byte :=
  match Byte.of_N (n mod 256) with
  | Some b => b
  | None => x00
  end.

(** The lenient decoding loop: characters outside the alphabet are
    skipped, padding ends the input once a group is complete, and an
    incomplete group at the end is an error.  [acc] is reversed. *)
Fixpoint go (s : string) (quad_pos : nat) (leftchar : N) (pads : nat)
    (acc : list byte) : option (list byte) :=
  match s with
  | EmptyString => if Nat.eqb quad_pos 0 then Some (rev acc) else None
  | String c r =>
      if Ascii.eqb c "="%char then
        if Nat.leb 2 quad_pos then
          if Nat.leb 4 (quad_pos + S pads) then Some (rev acc)
          else go r quad_pos leftchar (S pads) acc
        else go r quad_pos leftchar pads acc
      else
        match sextet c with
        | None => go r quad_pos leftchar pads acc
        | Some v =>
            match quad_pos with
            | 0%nat => go r 1%nat v 0%nat acc
            | 1%nat =>
                go r 2%nat (N.land v 15) 0%nat
                  (octet (N.lor (N.shiftl leftchar 2) (N.shiftr v 4)) :: acc)
            | 2%nat =>
                go r 3%nat (N.land v 3) 0%nat
                  (octet (N.lor (N.shiftl leftchar 4) (N.shiftr v 2)) :: acc)
            | _ =>
                go r 0%nat 0%N 0%nat
                  (octet (N.lor (N.shiftl leftchar 6) v) :: acc)
            end
        end
  end.

Definition decode (s : string) : option (list byte) := go s 0%nat 0%N 0%nat [].

End Base64.

Module Demo.

Definition usage : ParseResult :=
  ParseExit 2 "" ("usage: fc.py [-h] {markdown,screenshot,extract,search,crawl} ..." +:+ nl).

(** The plain forms of the command line, all options spelled out. *)
Definition parse (argv : list string) : ParseResult :=
  match argv with
  | ["markdown"; url] => Parsed (NsMarkdown url false)
  | ["markdown"; url; "--main-only"] => Parsed (NsMarkdown url true)
  | ["screenshot"; url] => Parsed (NsScreenshot url None)
  | ["screenshot"; url; "--output"; path] => Parsed (NsScreenshot url (Some path))
  | ["extract"; url; "--schema"; path] => Parsed (NsExtract url path None)
  | ["search"; query] => Parsed (NsSearch query 5)
  | ["crawl"; url] => Parsed (NsCrawl url 50 None)
  | ["crawl"; url; "--output"; dir] => Parsed (NsCrawl url 50 (Some dir))
  | _ => usage
  end.

(** Accepts the two-character document [{}] only. *)
Definition loads (s : string) : option Json :=
  if String.eqb s "{}" then Some (JObj []) else None.

Definition dumps (j : Json) : string :=
  match j with
  | JNull => "null"
  | JObj [] => "{}"
  | _ => "..."
  end.

(** A service that answers every scrape with [doc], every search with
    [found] and every crawl with [pages], and a remote host that serves
    [body] at every address. *)
Definition externals (doc : Document) (found : SearchData) (pages : list Document)
    (body : list byte) : Externals :=
  {| parse_args := parse;
     svc_scrape := fun _ _ => inr doc;
     svc_search := fun _ _ => inr found;
     svc_crawl := fun _ _ => inr {| data := pages |};
     url_fetch := fun _ => inr body;
     json_loads := loads;
     json_dumps := dumps;
     b64decode := Base64.decode |}.

Definition page (md : option string) (meta : option Metadata) : Document :=
  {| markdown := md; screenshot := None; json := JNull; metadata := meta |}.

Definition shot (s : string) : Document :=
  {| markdown := None; screenshot := Some s; json := JNull; metadata := None |}.

(** A process about to start: the credential is set unless [key] is
    [None], the disk holds [files], nothing has been printed or sent. *)
Definition world (key : option string) (files : gmap string (list byte)) : World :=
  {| w_env := match key with
              | Some k => {[ "FIRECRAWL_API_KEY" := k ]}
              | None => ∅
              end;
     w_files := files; w_dirs := ∅;
     w_stdout := ""; w_stderr := ""; w_net := [] |}.

End Demo.

(** ** Vocabulary of the statements *)

(** The two conditions under which [main] reaches a handler: the
    credential is set to a non-empty value and the command line is
    accepted as [ns]. *)
Definition invoked (ext : Externals) (argv : list string) (w : World)
    (ns : Namespace) : Prop :=
  Py.truthy (w_env w !! "FIRECRAWL_API_KEY") = true /\
  parse_args ext argv = Parsed ns.

(** The text one search result contributes to standard output: a heading
    with the title, the address, the description or the placeholder, and
    the separator, each ended by [print]'s newline. *)
Definition result_block (r : SearchResult) : string :=
  "## " +:+ Py.str_of_opt (sr_title r) +:+ nl +:+
  "URL: " +:+ sr_url r +:+ nl +:+
  Py.or_str (sr_description r) "No description" +:+ nl +:+
  nl +:+ "---" +:+ nl +:+ nl.

Definition join (l : list string) : string := foldr String.append "" l.

(** The scrape request every screenshot invocation sends. *)
Definition screenshot_request (url : string) : Request :=
  ReqScrape url [FmtName "screenshot"] None.

(** Lines 43-48: what happens to a base64 payload. *)
Definition save_or_count (ext : Externals) (output : option string)
    (payload : string) : M string :=
  (match output with
   | Some (String _ _ as path) =>
       Fs.open_write path ;;
       decoded <- match b64decode ext payload with
                  | Some b => ret b
                  | None => raise BinasciiError
                  end ;;
       Fs.write path decoded ;;
       ret ("Screenshot saved to " +:+ path)
   | _ =>
       ret ("[Screenshot: " +:+ Py.str_of_nat (Py.len payload)
              +:+ " bytes base64]")
   end)%py.

(** No comma occurs in [s]. *)
Definition comma_free (s : string) : bool :=
  negb (existsb (Ascii.eqb ","%char) (list_ascii_of_string s)).

(** [int(s)] for a string of decimal digits. *)
Definition int_of_str (s : string) : option nat :=
  option_map Nat.of_uint (NilEmpty.uint_of_string s).

(** The bytes written for one page: its markdown, or nothing. *)
Definition page_bytes (page : Document) : list byte :=
  list_byte_of_string (Py.or_str (markdown page) "").

(** The files on disk after the pages, numbered from [k], are saved in [out]. *)
Fixpoint saved_from (out : string) (k : nat) (pages : list Document)
    (f : gmap string (list byte)) : gmap string (list byte) :=
  match pages with
  | [] => f
  | page :: rest =>
      saved_from out (S k) rest (<[ page_filename out k := page_bytes page ]> f)
  end.

(** The directories after [mkdir(parents=True, exist_ok=True)] on [out]. *)
Definition dirs_with (out : string) (d : gset string) : gset string :=
  d ∪ list_to_set (Fs.parents out) ∪ {[ out ]}.

Definition crawl_request (url : string) (limit : Z) : Request :=
  ReqCrawl url limit ["markdown"] true.

(** ** Vocabulary of the further properties *)

(** The scrape request of a markdown invocation, lines 17-21. *)
Definition markdown_request (url : string) (main_only : bool) : Request :=
  ReqScrape url [FmtName "markdown"] (if main_only then Some true else None).

(** The scrape request of an extract invocation, lines 55-59. *)
Definition extract_request (url : string) (schema : Json)
    (prompt : option string) : Request :=
  ReqScrape url [FmtJson schema (if Py.truthy prompt then prompt else None)] None.

(** The request a subcommand starts with, when it does not depend on a
    file read before. *)
Definition first_request (ns : Namespace) : option Request :=
  match ns with
  | NsMarkdown url main_only => Some (markdown_request url main_only)
  | NsScreenshot url _ => Some (screenshot_request url)
  | NsExtract _ _ _ => None
  | NsSearch query limit => Some (ReqSearch query limit)
  | NsCrawl url limit _ => Some (crawl_request url limit)
  end.

(** The exception the client raises on a request, if it raises. *)
Definition service_error (ext : Externals) (key : option string)
    (r : Request) : option exn :=
  match r with
  | ReqScrape _ _ _ =>
      match svc_scrape ext key r with inl e => Some e | inr _ => None end
  | ReqSearch _ _ =>
      match svc_search ext key r with inl e => Some e | inr _ => None end
  | ReqCrawl _ _ _ _ =>
      match svc_crawl ext key r with inl e => Some e | inr _ => None end
  | ReqFetch u =>
      match url_fetch ext u with inl e => Some e | inr _ => None end
  end.

(** Line 33: the result is a remote locator. *)
Definition is_locator (s : string) : bool :=
  Py.startswith s "http://" || Py.startswith s "https://".

(** Lines 40-41: the base64 text of a result that is not a locator; there
    is none when a [data:image] string has no comma. *)
Definition payload_of (s : string) : option string :=
  if Py.startswith s "data:image" then snd (Py.split_comma s) else Some s.


(** The subcommands, with their options, that have no statement that
    writes to the disk. *)
Definition writes_nothing (ns : Namespace) : bool :=
  match ns with
  | NsMarkdown _ _ => true
  | NsScreenshot _ output => negb (Py.truthy output)
  | NsExtract _ _ _ => true
  | NsSearch _ _ => true
  | NsCrawl _ _ output => negb (Py.truthy output)
  end.

(** A computation that leaves files and directories as they are, however
    it ends. *)
Definition fs_kept {A} (m : M A) : Prop :=
  forall w, w_files (snd (m w)) = w_files w /\ w_dirs (snd (m w)) = w_dirs w.

(** [base] with the service out of order: every call to it raises [e]. *)
Definition service_down (e : exn) (base : Externals) : Externals :=
  {| parse_args := parse_args base;
     svc_scrape := fun _ _ => inl e;
     svc_search := fun _ _ => inl e;
     svc_crawl := fun _ _ => inl e;
     url_fetch := url_fetch base;
     json_loads := json_loads base;
     json_dumps := json_dumps base;
     b64decode := b64decode base |}.




(** ** Facts about strings *)

Module StrFacts.

Lemma app_nil_l (b : string) : "" +:+ b = b.
Proof. reflexivity. Qed.

Lemma app_cons (x : ascii) (a b : string) :
  String x a +:+ b = String x (a +:+ b).
Proof. reflexivity. Qed.

Lemma app_assoc (a b c : string) : (a +:+ b) +:+ c = a +:+ (b +:+ c).
Proof.
  induction a as [|x a IH]; [reflexivity|].
  rewrite !app_cons. now rewrite IH.
Qed.

Lemma app_nil_r (a : string) : a +:+ "" = a.
Proof.
  induction a as [|x a IH]; [reflexivity|].
  rewrite app_cons. now rewrite IH.
Qed.

Lemma app_length (a b : string) :
  String.length (a +:+ b) = (String.length a + String.length b)%nat.
Proof.
  induction a as [|x a IH]; [reflexivity|].
  rewrite app_cons. cbn. now rewrite IH.
Qed.

Lemma app_inv_tail (a b c : string) : a +:+ c = b +:+ c -> a = b.
Proof.
  revert b. induction a as [|x a IH]; intros [|y b] H.
  - reflexivity.
  - apply (f_equal String.length) in H.
    rewrite app_nil_l, app_cons in H. cbn in H. rewrite app_length in H. lia.
  - apply (f_equal String.length) in H.
    rewrite app_nil_l, app_cons in H. cbn in H. rewrite app_length in H. lia.
  - rewrite !app_cons in H. injection H as -> H. f_equal. now apply IH.
Qed.

End StrFacts.

(** ** How a run unfolds *)

Section Runs.

Context (ext : Externals).

Lemma main_dispatch argv w ns :
  invoked ext argv w ns -> main ext argv w = dispatch ext ns w.
Proof.
  intros [Hkey Hparse]. unfold main, bind, getenv, argparse.
  rewrite Hkey, Hparse. reflexivity.
Qed.

End Runs.

(** ** The credential check *)

(** C1: when FIRECRAWL_API_KEY is absent from the environment, every
    invocation, whatever its arguments and whatever the parser and the
    service would do, writes the message to the error stream and exits with
    code 1; the command line is not looked at, nothing is printed on
    standard output, nothing is sent and the disk is untouched. *)
Theorem missing_credential_exits_1 (ext : Externals) (argv : list string) (w : World) :
  w_env w !! "FIRECRAWL_API_KEY" = None ->
  main ext argv w =
    (Exit 1,
     {| w_env := w_env w; w_files := w_files w; w_dirs := w_dirs w;
        w_stdout := w_stdout w;
        w_stderr := w_stderr w +:+ "FIRECRAWL_API_KEY not set in environment." +:+ nl;
        w_net := w_net w |}).
Proof.
  intros Hkey. unfold main, bind, getenv. rewrite Hkey. reflexivity.
Qed.

Lemma missing_credential_exits_1_witness :
  main (Demo.externals (Demo.shot "") {| web := None |} [] [])
       ["no-such-command"] (Demo.world None ∅) =
    (Exit 1,
     {| w_env := ∅; w_files := ∅; w_dirs := ∅; w_stdout := "";
        w_stderr := "FIRECRAWL_API_KEY not set in environment." +:+ nl;
        w_net := [] |}).
Proof.
  apply (missing_credential_exits_1
           (Demo.externals (Demo.shot "") {| web := None |} [] [])
           ["no-such-command"] (Demo.world None ∅)).
  reflexivity.
Defined.

(** ** The markdown handler *)

(** C3: a markdown invocation sends exactly one scrape request; when the
    main-content flag is false the [only_main_content] argument is [None]
    (left out), never [Some false], and when the flag is true it is
    [Some true].  This holds whether the service answers or raises. *)
Theorem markdown_only_main_content (ext : Externals) (argv : list string)
    (w : World) (url : string) (main_only : bool) :
  invoked ext argv w (NsMarkdown url main_only) ->
  w_net (snd (main ext argv w)) =
    w_net w ++ [ReqScrape url [FmtName "markdown"]
                  (if main_only then Some true else None)].
Proof.
  intros Hinv. rewrite (main_dispatch ext argv w _ Hinv).
  unfold dispatch, scrape_markdown, call, bind, Firecrawl, getenv. cbn.
  destruct main_only;
    match goal with |- context [svc_scrape ext ?k ?r] =>
      destruct (svc_scrape ext k r) end; reflexivity.
Qed.

Lemma markdown_only_main_content_witness :
  let ext := Demo.externals (Demo.page (Some "# Title") None) {| web := None |} [] [] in
  let w := Demo.world (Some "fc-key") ∅ in
  w_net (snd (main ext ["markdown"; "https://example.org"] w)) =
    [ReqScrape "https://example.org" [FmtName "markdown"] None] /\
  w_net (snd (main ext ["markdown"; "https://example.org"; "--main-only"] w)) =
    [ReqScrape "https://example.org" [FmtName "markdown"] (Some true)].
Proof.
  intros ext w. split.
  - apply (markdown_only_main_content ext ["markdown"; "https://example.org"] w
             "https://example.org" false).
    split; reflexivity.
  - apply (markdown_only_main_content ext
             ["markdown"; "https://example.org"; "--main-only"] w
             "https://example.org" true).
    split; reflexivity.
Defined.

(** ** The search handler *)

Lemma print_result_run (r : SearchResult) (w : World) :
  print_result r w =
    (Ret tt,
     {| w_env := w_env w; w_files := w_files w; w_dirs := w_dirs w;
        w_stdout := w_stdout w +:+ result_block r;
        w_stderr := w_stderr w; w_net := w_net w |}).
Proof.
  unfold print_result, bind, print, result_block. cbn.
  do 2 f_equal. now rewrite !StrFacts.app_assoc.
Qed.

Lemma for_each_print_result (l : list SearchResult) (w : World) :
  for_each l print_result w =
    (Ret tt,
     {| w_env := w_env w; w_files := w_files w; w_dirs := w_dirs w;
        w_stdout := w_stdout w +:+ join (map result_block l);
        w_stderr := w_stderr w; w_net := w_net w |}).
Proof.
  revert w. induction l as [|r l IH]; intros w.
  - cbn. unfold ret. destruct w; cbn. now rewrite StrFacts.app_nil_r.
  - cbn [for_each]. unfold bind at 1. rewrite print_result_run, IH. cbn.
    do 2 f_equal. now rewrite StrFacts.app_assoc.
Qed.

Lemma search_web_run (ext : Externals) (query : string) (limit : Z)
    (w : World) (sd : SearchData) :
  svc_search ext (w_env w !! "FIRECRAWL_API_KEY") (ReqSearch query limit) = inr sd ->
  search_web ext query limit w =
    (Ret (Py.or_nil (web sd)),
     {| w_env := w_env w; w_files := w_files w; w_dirs := w_dirs w;
        w_stdout := w_stdout w; w_stderr := w_stderr w;
        w_net := w_net w ++ [ReqSearch query limit] |}).
Proof.
  intros Hsvc. unfold search_web, call, bind, Firecrawl, getenv. cbn.
  now rewrite Hsvc.
Qed.

(** C7: a search invocation prints one block per result, in the order of
    the service's list: heading with the title, URL line, description line
    (the placeholder "No description" when the description is absent), then
    the separator.  With an empty list nothing is printed. *)
Theorem search_prints_results_in_order (ext : Externals) (argv : list string)
    (w : World) (query : string) (limit : Z) (sd : SearchData) :
  invoked ext argv w (NsSearch query limit) ->
  svc_search ext (w_env w !! "FIRECRAWL_API_KEY") (ReqSearch query limit) = inr sd ->
  main ext argv w =
    (Ret tt,
     {| w_env := w_env w; w_files := w_files w; w_dirs := w_dirs w;
        w_stdout := w_stdout w +:+ join (map result_block (Py.or_nil (web sd)));
        w_stderr := w_stderr w;
        w_net := w_net w ++ [ReqSearch query limit] |}) /\
  (forall r, sr_description r = None ->
     result_block r =
       "## " +:+ Py.str_of_opt (sr_title r) +:+ nl +:+
       "URL: " +:+ sr_url r +:+ nl +:+ "No description" +:+ nl +:+
       nl +:+ "---" +:+ nl +:+ nl) /\
  (Py.or_nil (web sd) = [] -> w_stdout (snd (main ext argv w)) = w_stdout w).
Proof.
  intros Hinv Hsvc.
  assert (Hmain : main ext argv w =
    (Ret tt,
     {| w_env := w_env w; w_files := w_files w; w_dirs := w_dirs w;
        w_stdout := w_stdout w +:+ join (map result_block (Py.or_nil (web sd)));
        w_stderr := w_stderr w;
        w_net := w_net w ++ [ReqSearch query limit] |})).
  { rewrite (main_dispatch ext argv w _ Hinv). unfold dispatch, bind.
    rewrite (search_web_run ext query limit w sd Hsvc).
    now rewrite for_each_print_result. }
  split; [exact Hmain|]. split.
  - intros r Hd. unfold result_block. now rewrite Hd.
  - intros Hnil. rewrite Hmain, Hnil. cbn. apply StrFacts.app_nil_r.
Qed.

Lemma search_prints_results_in_order_witness :
  let found :=
    {| web := Some [ {| sr_title := Some "Rocq"; sr_url := "https://rocq-prover.org";
                        sr_description := Some "A proof assistant" |};
                     {| sr_title := Some "Bare"; sr_url := "https://example.org";
                        sr_description := None |} ] |} in
  let ext := Demo.externals (Demo.shot "") found [] [] in
  main ext ["search"; "provers"] (Demo.world (Some "fc-key") ∅) =
    (Ret tt,
     {| w_env := {[ "FIRECRAWL_API_KEY" := "fc-key" ]};
        w_files := ∅; w_dirs := ∅;
        w_stdout :=
          "## Rocq" +:+ nl +:+ "URL: https://rocq-prover.org" +:+ nl +:+
          "A proof assistant" +:+ nl +:+ nl +:+ "---" +:+ nl +:+ nl +:+
          "## Bare" +:+ nl +:+ "URL: https://example.org" +:+ nl +:+
          "No description" +:+ nl +:+ nl +:+ "---" +:+ nl +:+ nl;
        w_stderr := ""; w_net := [ReqSearch "provers" 5] |}).
Proof.
  intros found ext.
  assert (Hinv : invoked ext ["search"; "provers"] (Demo.world (Some "fc-key") ∅)
                   (NsSearch "provers" 5)) by (split; reflexivity).
  exact (proj1 (search_prints_results_in_order ext ["search"; "provers"]
                  (Demo.world (Some "fc-key") ∅) "provers" 5 found Hinv eq_refl)).
Defined.

(** C10: when the service's answer carries no list of web results,
    [search_web] returns the empty list, and the invocation ends normally
    without printing anything. *)
Theorem search_null_web_is_empty_list (ext : Externals) (argv : list string)
    (w : World) (query : string) (limit : Z) (sd : SearchData) :
  invoked ext argv w (NsSearch query limit) ->
  svc_search ext (w_env w !! "FIRECRAWL_API_KEY") (ReqSearch query limit) = inr sd ->
  web sd = None ->
  fst (search_web ext query limit w) = Ret [] /\
  main ext argv w =
    (Ret tt,
     {| w_env := w_env w; w_files := w_files w; w_dirs := w_dirs w;
        w_stdout := w_stdout w; w_stderr := w_stderr w;
        w_net := w_net w ++ [ReqSearch query limit] |}).
Proof.
  intros Hinv Hsvc Hweb. split.
  - rewrite (search_web_run ext query limit w sd Hsvc). cbn. now rewrite Hweb.
  - rewrite (main_dispatch ext argv w _ Hinv). unfold dispatch, bind.
    rewrite (search_web_run ext query limit w sd Hsvc), Hweb. reflexivity.
Qed.

Lemma search_null_web_is_empty_list_witness :
  let ext := Demo.externals (Demo.shot "") {| web := None |} [] [] in
  let w := Demo.world (Some "fc-key") ∅ in
  fst (search_web ext "provers" 5 w) = Ret [] /\
  main ext ["search"; "provers"] w =
    (Ret tt,
     {| w_env := {[ "FIRECRAWL_API_KEY" := "fc-key" ]};
        w_files := ∅; w_dirs := ∅; w_stdout := ""; w_stderr := "";
        w_net := [ReqSearch "provers" 5] |}).
Proof.
  intros ext w.
  assert (Hinv : invoked ext ["search"; "provers"] w (NsSearch "provers" 5))
    by (split; reflexivity).
  exact (search_null_web_is_empty_list ext ["search"; "provers"] w "provers" 5
           {| web := None |} Hinv eq_refl eq_refl).
Defined.

(** ** The extraction handler *)

(** C8: when the schema file does not exist, or exists but its text is not
    valid JSON, an extract invocation ends with an uncaught exception and
    the world is exactly as it was: no request has been sent, nothing has
    been printed. *)
Theorem extract_bad_schema_fails_before_network (ext : Externals)
    (argv : list string) (w : World) (url schema : string) (prompt : option string) :
  invoked ext argv w (NsExtract url schema prompt) ->
  (w_files w !! schema = None \/
   exists c, w_files w !! schema = Some c /\
             json_loads ext (string_of_list_byte c) = None) ->
  exists e, main ext argv w = (Raise e, w).
Proof.
  intros Hinv Hbad. rewrite (main_dispatch ext argv w _ Hinv).
  unfold dispatch, bind, Fs.read_text.
  destruct Hbad as [Hnone | (c & Hsome & Hjson)].
  - rewrite Hnone. case_bool_decide; eauto.
  - rewrite Hsome, Hjson. eauto.
Qed.

Lemma extract_bad_schema_fails_before_network_witness :
  let ext := Demo.externals (Demo.shot "") {| web := None |} [] [] in
  let w := Demo.world (Some "fc-key") {[ "schema.json" := list_byte_of_string "{oops" ]} in
  (exists e, main ext ["extract"; "https://example.org"; "--schema"; "schema.json"] w
             = (Raise e, w)) /\
  (exists e, main ext ["extract"; "https://example.org"; "--schema"; "gone.json"] w
             = (Raise e, w)).
Proof.
  intros ext w. split.
  - apply (extract_bad_schema_fails_before_network ext
             ["extract"; "https://example.org"; "--schema"; "schema.json"] w
             "https://example.org" "schema.json" None).
    + split; reflexivity.
    + right. exists (list_byte_of_string "{oops"). split; reflexivity.
  - apply (extract_bad_schema_fails_before_network ext
             ["extract"; "https://example.org"; "--schema"; "gone.json"] w
             "https://example.org" "gone.json" None).
    + split; reflexivity.
    + left. reflexivity.
Defined.

(** ** Writing files *)

Module FsFacts.

Lemma open_write_ok (w : World) (p : string) :
  Fs.can_write w p = true ->
  Fs.open_write p w = (Ret tt, Fs.set_files (<[ p := [] ]> (w_files w)) w).
Proof.
  unfold Fs.can_write, Fs.open_write. intros H.
  destruct (bool_decide (p = "")); [discriminate|].
  destruct (bool_decide (p ∈ w_dirs w)); [discriminate|].
  destruct (Fs.is_file w (Fs.dirname p)); [discriminate|].
  cbn in H. now rewrite H.
Qed.

(** Opening a file and writing [b] once leaves exactly [b] in it. *)
Lemma open_then_write (w : World) (p : string) (b : list byte) :
  Fs.can_write w p = true ->
  (Fs.open_write p ;; Fs.write p b)%py w =
    (Ret tt, Fs.set_files (<[ p := b ]> (w_files w)) w).
Proof.
  intros H. unfold bind. rewrite (open_write_ok w p H).
  unfold Fs.write, Fs.set_files. cbn. do 2 f_equal.
  now rewrite alter_insert_eq.
Qed.

End FsFacts.

(** ** The screenshot handler *)

Lemma take_screenshot_run (ext : Externals) (url : string)
    (output : option string) (w : World) (doc : Document) (s : string) :
  svc_scrape ext (w_env w !! "FIRECRAWL_API_KEY") (screenshot_request url) = inr doc ->
  screenshot doc = Some s ->
  take_screenshot ext url output w =
    (let w1 := snd (sent (screenshot_request url) w) in
     if Py.startswith s "http://" || Py.startswith s "https://" then
       match output with
       | Some (String _ _ as path) =>
           (urlretrieve ext s path ;; ret ("Screenshot saved to " +:+ path))%py w1
       | _ => (Ret ("[Screenshot URL: " +:+ s +:+ "]"), w1)
       end
     else
       (payload <-
          (if Py.startswith s "data:image" then
             match snd (Py.split_comma s) with
             | Some rest => ret rest
             | None => raise IndexError
             end
           else ret s) ;;
        save_or_count ext output payload)%py w1).
Proof.
  intros Hsvc Hshot. unfold take_screenshot, call, bind at 1 2 3, Firecrawl, getenv.
  cbn [fst snd sent]. unfold screenshot_request in Hsvc. unfold bind at 1.
  cbn [sent]. rewrite Hsvc. unfold ret at 1. cbn iota beta. rewrite Hshot.
  destruct (Py.startswith s "http://" || Py.startswith s "https://");
    destruct output as [[|c p]|]; reflexivity.
Qed.

Lemma save_or_count_saved (ext : Externals) (path payload : string)
    (decoded : list byte) (w : World) :
  Fs.can_write w path = true ->
  b64decode ext payload = Some decoded ->
  save_or_count ext (Some path) payload w =
    (Ret ("Screenshot saved to " +:+ path),
     Fs.set_files (<[ path := decoded ]> (w_files w)) w).
Proof.
  intros Hcw Hdec. destruct path as [|c p]; [discriminate|].
  unfold save_or_count, bind. rewrite (FsFacts.open_write_ok w _ Hcw), Hdec.
  unfold Fs.write, Fs.set_files, ret. cbn. do 2 f_equal.
  now rewrite alter_insert_eq.
Qed.

Lemma save_or_count_counted (ext : Externals) (output : option string)
    (payload : string) (w : World) :
  Py.truthy output = false ->
  save_or_count ext output payload w =
    (Ret ("[Screenshot: " +:+ Py.str_of_nat (Py.len payload) +:+ " bytes base64]"), w).
Proof. intros H. destruct output as [[|c p]|]; try discriminate; reflexivity. Qed.

Lemma prefix_cons (a b : ascii) (p s : string) :
  String.prefix (String a p) (String b s) =
    if ascii_dec a b then String.prefix p s else false.
Proof. reflexivity. Qed.

(** A string that begins with [data:image] begins with neither scheme. *)
Lemma data_image_not_http (s : string) :
  Py.startswith s "data:image" = true ->
  Py.startswith s "http://" || Py.startswith s "https://" = false.
Proof.
  unfold Py.startswith. destruct s as [|c s]; [discriminate|].
  rewrite !prefix_cons.
  destruct (ascii_dec "d" c) as [<-|]; [intros _ | discriminate].
  destruct (ascii_dec "h" "d") as [E|]; [discriminate E | reflexivity].
Qed.

(** [split(",", 1)] cuts at the first comma. *)
Lemma split_comma_app (pre rest : string) :
  comma_free pre = true ->
  Py.split_comma (pre +:+ "," +:+ rest) = (pre, Some rest).
Proof.
  unfold comma_free. induction pre as [|c pre IH]; intros H.
  - reflexivity.
  - rewrite StrFacts.app_cons. cbn [list_ascii_of_string existsb] in H.
    cbn [Py.split_comma]. rewrite (Ascii.eqb_sym c ","%char).
    destruct (Ascii.eqb ","%char c); [discriminate|].
    cbn [orb] in H. now rewrite (IH H).
Qed.

(** C4: the service answers a screenshot invocation with a string that
    begins with [http://] or [https://].  With no output path (none given,
    or the empty string) the handler prints exactly
    [[Screenshot URL: <string>]] and touches no file.  With an output path
    that can be written, it fetches the resource at that address, leaves
    its bytes in the file at the path and prints
    [Screenshot saved to <path>]. *)
Theorem screenshot_remote_locator (ext : Externals) (argv : list string)
    (w : World) (url : string) (output : option string) (doc : Document)
    (s : string) :
  invoked ext argv w (NsScreenshot url output) ->
  svc_scrape ext (w_env w !! "FIRECRAWL_API_KEY") (screenshot_request url) = inr doc ->
  screenshot doc = Some s ->
  Py.startswith s "http://" || Py.startswith s "https://" = true ->
  (Py.truthy output = false ->
   main ext argv w =
     (Ret tt,
      {| w_env := w_env w; w_files := w_files w; w_dirs := w_dirs w;
         w_stdout := w_stdout w +:+ ("[Screenshot URL: " +:+ s +:+ "]") +:+ nl;
         w_stderr := w_stderr w;
         w_net := w_net w ++ [screenshot_request url] |})) /\
  (forall path body,
     output = Some path ->
     Fs.can_write w path = true ->
     url_fetch ext s = inr body ->
     main ext argv w =
       (Ret tt,
        {| w_env := w_env w; w_files := <[ path := body ]> (w_files w);
           w_dirs := w_dirs w;
           w_stdout := w_stdout w +:+ ("Screenshot saved to " +:+ path) +:+ nl;
           w_stderr := w_stderr w;
           w_net := (w_net w ++ [screenshot_request url]) ++ [ReqFetch s] |})).
Proof.
  intros Hinv Hsvc Hshot Hhttp.
  rewrite (main_dispatch ext argv w _ Hinv). unfold dispatch. split.
  - intros Hno. unfold bind at 1.
    rewrite (take_screenshot_run ext url output w doc s Hsvc Hshot).
    cbn zeta. rewrite Hhttp.
    destruct output as [[|c p]|]; try discriminate; reflexivity.
  - intros path body -> Hcw Hfetch. unfold bind at 1.
    rewrite (take_screenshot_run ext url _ w doc s Hsvc Hshot).
    cbn zeta. rewrite Hhttp.
    destruct path as [|c p]; [discriminate|].
    unfold urlretrieve. unfold bind at 1 2. cbn [sent snd]. rewrite Hfetch.
    rewrite FsFacts.open_then_write by exact Hcw.
    reflexivity.
Qed.

Lemma screenshot_remote_locator_witness :
  let s := "https://storage.example/shot.png" in
  let ext := Demo.externals (Demo.shot s) {| web := None |} [] [x89; x50; x4e; x47] in
  let w := Demo.world (Some "fc-key") ∅ in
  main ext ["screenshot"; "https://example.org"] w =
    (Ret tt,
     {| w_env := w_env w; w_files := ∅; w_dirs := ∅;
        w_stdout := "[Screenshot URL: https://storage.example/shot.png]" +:+ nl;
        w_stderr := "";
        w_net := [screenshot_request "https://example.org"] |}) /\
  main ext ["screenshot"; "https://example.org"; "--output"; "shot.png"] w =
    (Ret tt,
     {| w_env := w_env w; w_files := {[ "shot.png" := [x89; x50; x4e; x47] ]};
        w_dirs := ∅;
        w_stdout := "Screenshot saved to shot.png" +:+ nl;
        w_stderr := "";
        w_net := [screenshot_request "https://example.org"; ReqFetch s] |}).
Proof.
  intros s ext w. split.
  - assert (Hinv : invoked ext ["screenshot"; "https://example.org"] w
                     (NsScreenshot "https://example.org" None))
      by (split; reflexivity).
    exact (proj1 (screenshot_remote_locator ext _ w "https://example.org" None
                    (Demo.shot s) s Hinv eq_refl eq_refl eq_refl) eq_refl).
  - assert (Hinv : invoked ext
                     ["screenshot"; "https://example.org"; "--output"; "shot.png"] w
                     (NsScreenshot "https://example.org" (Some "shot.png")))
      by (split; reflexivity).
    exact (proj2 (screenshot_remote_locator ext _ w "https://example.org"
                    (Some "shot.png") (Demo.shot s) s Hinv eq_refl eq_refl eq_refl)
             "shot.png" [x89; x50; x4e; x47] eq_refl eq_refl eq_refl).
Defined.

(** C5: the service answers a screenshot invocation with a data URI, a
    string that begins with [data:image] and continues, after its first
    comma, with [payload].  With an output path that can be written and a
    payload that decodes, the handler leaves the base64-decoded payload in
    the file at the path and prints [Screenshot saved to <path>].  With no
    output path it prints the summary [[Screenshot: <n> bytes base64]],
    where [n] is the length of the payload, and touches no file. *)
Theorem screenshot_data_uri (ext : Externals) (argv : list string)
    (w : World) (url : string) (output : option string) (doc : Document)
    (s pre payload : string) :
  invoked ext argv w (NsScreenshot url output) ->
  svc_scrape ext (w_env w !! "FIRECRAWL_API_KEY") (screenshot_request url) = inr doc ->
  screenshot doc = Some s ->
  Py.startswith s "data:image" = true ->
  s = pre +:+ "," +:+ payload ->
  comma_free pre = true ->
  (forall path decoded,
     output = Some path ->
     Fs.can_write w path = true ->
     b64decode ext payload = Some decoded ->
     main ext argv w =
       (Ret tt,
        {| w_env := w_env w; w_files := <[ path := decoded ]> (w_files w);
           w_dirs := w_dirs w;
           w_stdout := w_stdout w +:+ ("Screenshot saved to " +:+ path) +:+ nl;
           w_stderr := w_stderr w;
           w_net := w_net w ++ [screenshot_request url] |})) /\
  (Py.truthy output = false ->
   main ext argv w =
     (Ret tt,
      {| w_env := w_env w; w_files := w_files w; w_dirs := w_dirs w;
         w_stdout :=
           w_stdout w +:+
           ("[Screenshot: " +:+ Py.str_of_nat (Py.len payload) +:+ " bytes base64]")
           +:+ nl;
         w_stderr := w_stderr w;
         w_net := w_net w ++ [screenshot_request url] |})).
Proof.
  intros Hinv Hsvc Hshot Hdata Hs Hpre.
  pose proof (data_image_not_http s Hdata) as Hhttp.
  pose proof (split_comma_app pre payload Hpre) as Hsplit. rewrite <- Hs in Hsplit.
  rewrite (main_dispatch ext argv w _ Hinv). unfold dispatch. split.
  - intros path decoded -> Hcw Hdec. unfold bind at 1.
    rewrite (take_screenshot_run ext url _ w doc s Hsvc Hshot).
    cbn zeta. rewrite Hhttp, Hdata, Hsplit. cbn [snd]. unfold bind at 1, ret at 1.
    rewrite (save_or_count_saved ext path payload decoded) by exact Hcw || exact Hdec.
    reflexivity.
  - intros Hno. unfold bind at 1.
    rewrite (take_screenshot_run ext url _ w doc s Hsvc Hshot).
    cbn zeta. rewrite Hhttp, Hdata, Hsplit. cbn [snd]. unfold bind at 1, ret at 1.
    rewrite (save_or_count_counted ext output payload _ Hno).
    reflexivity.
Qed.

Lemma screenshot_data_uri_witness :
  let s := "data:image/png;base64,AAAA" in
  let ext := Demo.externals (Demo.shot s) {| web := None |} [] [] in
  let w := Demo.world (Some "fc-key") ∅ in
  main ext ["screenshot"; "https://example.org"; "--output"; "shot.png"] w =
    (Ret tt,
     {| w_env := w_env w; w_files := {[ "shot.png" := [x00; x00; x00] ]};
        w_dirs := ∅;
        w_stdout := "Screenshot saved to shot.png" +:+ nl;
        w_stderr := "";
        w_net := [screenshot_request "https://example.org"] |}) /\
  main ext ["screenshot"; "https://example.org"] w =
    (Ret tt,
     {| w_env := w_env w; w_files := ∅; w_dirs := ∅;
        w_stdout := "[Screenshot: 4 bytes base64]" +:+ nl;
        w_stderr := "";
        w_net := [screenshot_request "https://example.org"] |}).
Proof.
  intros s ext w. split.
  - assert (Hinv : invoked ext
                     ["screenshot"; "https://example.org"; "--output"; "shot.png"] w
                     (NsScreenshot "https://example.org" (Some "shot.png")))
      by (split; reflexivity).
    exact (proj1 (screenshot_data_uri ext _ w "https://example.org"
                    (Some "shot.png") (Demo.shot s) s "data:image/png;base64" "AAAA"
                    Hinv eq_refl eq_refl eq_refl eq_refl eq_refl)
             "shot.png" [x00; x00; x00] eq_refl eq_refl eq_refl).
  - assert (Hinv : invoked ext ["screenshot"; "https://example.org"] w
                     (NsScreenshot "https://example.org" None))
      by (split; reflexivity).
    exact (proj2 (screenshot_data_uri ext _ w "https://example.org"
                    None (Demo.shot s) s "data:image/png;base64" "AAAA"
                    Hinv eq_refl eq_refl eq_refl eq_refl eq_refl) eq_refl).
Defined.

(** C9: the service answers a screenshot invocation with a string that
    begins with none of [http://], [https://] and [data:image].  The whole
    string is then taken as base64: with an output path that can be written
    and a string that decodes, the decoded bytes of the whole string end up
    in the file; with no output path the handler prints
    [[Screenshot: <n> bytes base64]] where [n] is the length of the string
    itself, not of what it decodes to. *)
Theorem screenshot_bare_base64 (ext : Externals) (argv : list string)
    (w : World) (url : string) (output : option string) (doc : Document)
    (s : string) :
  invoked ext argv w (NsScreenshot url output) ->
  svc_scrape ext (w_env w !! "FIRECRAWL_API_KEY") (screenshot_request url) = inr doc ->
  screenshot doc = Some s ->
  Py.startswith s "http://" = false ->
  Py.startswith s "https://" = false ->
  Py.startswith s "data:image" = false ->
  (forall path decoded,
     output = Some path ->
     Fs.can_write w path = true ->
     b64decode ext s = Some decoded ->
     main ext argv w =
       (Ret tt,
        {| w_env := w_env w; w_files := <[ path := decoded ]> (w_files w);
           w_dirs := w_dirs w;
           w_stdout := w_stdout w +:+ ("Screenshot saved to " +:+ path) +:+ nl;
           w_stderr := w_stderr w;
           w_net := w_net w ++ [screenshot_request url] |})) /\
  (Py.truthy output = false ->
   main ext argv w =
     (Ret tt,
      {| w_env := w_env w; w_files := w_files w; w_dirs := w_dirs w;
         w_stdout :=
           w_stdout w +:+
           ("[Screenshot: " +:+ Py.str_of_nat (String.length s) +:+ " bytes base64]")
           +:+ nl;
         w_stderr := w_stderr w;
         w_net := w_net w ++ [screenshot_request url] |})).
Proof.
  intros Hinv Hsvc Hshot Hh Hhs Hdata.
  rewrite (main_dispatch ext argv w _ Hinv). unfold dispatch. split.
  - intros path decoded -> Hcw Hdec. unfold bind at 1.
    rewrite (take_screenshot_run ext url _ w doc s Hsvc Hshot).
    cbn zeta. rewrite Hh, Hhs, Hdata. cbn [orb]. unfold bind at 1, ret at 1.
    rewrite (save_or_count_saved ext path s decoded) by exact Hcw || exact Hdec.
    reflexivity.
  - intros Hno. unfold bind at 1.
    rewrite (take_screenshot_run ext url _ w doc s Hsvc Hshot).
    cbn zeta. rewrite Hh, Hhs, Hdata. cbn [orb]. unfold bind at 1, ret at 1.
    rewrite (save_or_count_counted ext output s _ Hno).
    reflexivity.
Qed.

Lemma screenshot_bare_base64_witness :
  let s := "aGVsbG8=" in
  let ext := Demo.externals (Demo.shot s) {| web := None |} [] [] in
  let w := Demo.world (Some "fc-key") ∅ in
  main ext ["screenshot"; "https://example.org"; "--output"; "shot.png"] w =
    (Ret tt,
     {| w_env := w_env w;
        w_files := {[ "shot.png" := [x68; x65; x6c; x6c; x6f] ]};
        w_dirs := ∅;
        w_stdout := "Screenshot saved to shot.png" +:+ nl;
        w_stderr := "";
        w_net := [screenshot_request "https://example.org"] |}) /\
  main ext ["screenshot"; "https://example.org"] w =
    (Ret tt,
     {| w_env := w_env w; w_files := ∅; w_dirs := ∅;
        w_stdout := "[Screenshot: 8 bytes base64]" +:+ nl;
        w_stderr := "";
        w_net := [screenshot_request "https://example.org"] |}).
Proof.
  intros s ext w. split.
  - assert (Hinv : invoked ext
                     ["screenshot"; "https://example.org"; "--output"; "shot.png"] w
                     (NsScreenshot "https://example.org" (Some "shot.png")))
      by (split; reflexivity).
    exact (proj1 (screenshot_bare_base64 ext _ w "https://example.org"
                    (Some "shot.png") (Demo.shot s) s
                    Hinv eq_refl eq_refl eq_refl eq_refl eq_refl)
             "shot.png" [x68; x65; x6c; x6c; x6f] eq_refl eq_refl eq_refl).
  - assert (Hinv : invoked ext ["screenshot"; "https://example.org"] w
                     (NsScreenshot "https://example.org" None))
      by (split; reflexivity).
    exact (proj2 (screenshot_bare_base64 ext _ w "https://example.org"
                    None (Demo.shot s) s
                    Hinv eq_refl eq_refl eq_refl eq_refl eq_refl) eq_refl).
Defined.

(** ** File names of crawled pages *)

Module NameFacts.

Lemma has_slash_cons (c : ascii) (s : string) :
  Fs.has_slash (String c s) = Ascii.eqb "/"%char c || Fs.has_slash s.
Proof. reflexivity. Qed.

Lemma has_slash_app (a b : string) :
  Fs.has_slash (a +:+ b) = Fs.has_slash a || Fs.has_slash b.
Proof.
  induction a as [|c a IH]; [reflexivity|].
  rewrite StrFacts.app_cons, !has_slash_cons, IH. apply orb_assoc.
Qed.

Lemma has_slash_zeros (k : nat) : Fs.has_slash (Py.zeros k) = false.
Proof. induction k as [|k IH]; [reflexivity|]. cbn [Py.zeros]. now rewrite has_slash_cons, IH. Qed.

Lemma has_slash_uint (d : uint) : Fs.has_slash (NilEmpty.string_of_uint d) = false.
Proof.
  induction d as [|d IH|d IH|d IH|d IH|d IH|d IH|d IH|d IH|d IH|d IH];
    [reflexivity|..]; cbn [NilEmpty.string_of_uint];
    now rewrite has_slash_cons, IH.
Qed.

Lemma has_slash_fmt_03d (i : nat) : Fs.has_slash (Py.fmt_03d i) = false.
Proof.
  unfold Py.fmt_03d, Py.str_of_nat.
  now rewrite has_slash_app, has_slash_zeros, has_slash_uint.
Qed.

(** The directory part of [out/name] is [out]. *)
Lemma dirname_join (out name : string) :
  Fs.has_slash name = false ->
  Fs.dirname (out +:+ "/" +:+ name) = out.
Proof.
  intros Hname. induction out as [|c out IH].
  - rewrite StrFacts.app_nil_l, StrFacts.app_cons, StrFacts.app_nil_l.
    cbn [Fs.dirname]. now rewrite Hname.
  - rewrite StrFacts.app_cons. cbn [Fs.dirname]. rewrite has_slash_app.
    assert (E : Fs.has_slash ("/" +:+ name) = true) by reflexivity.
    now rewrite E, orb_true_r, IH.
Qed.

Lemma page_filename_split (out : string) (i : nat) :
  page_filename out i = out +:+ "/" +:+ ("page_" +:+ Py.fmt_03d i +:+ ".md").
Proof. reflexivity. Qed.

Lemma dirname_page_filename (out : string) (i : nat) :
  Fs.dirname (page_filename out i) = out.
Proof.
  rewrite page_filename_split. apply dirname_join.
  rewrite !has_slash_app, has_slash_fmt_03d. reflexivity.
Qed.

Lemma page_filename_longer (out : string) (i : nat) :
  (String.length out < String.length (page_filename out i))%nat.
Proof.
  rewrite page_filename_split, !StrFacts.app_length. cbn [String.length]. lia.
Qed.

Lemma page_filename_ne_out (out : string) (i : nat) : page_filename out i <> out.
Proof.
  intros H. pose proof (page_filename_longer out i) as L. rewrite H in L. lia.
Qed.

Lemma page_filename_nonempty (out : string) (i : nat) :
  page_filename out i <> EmptyString.
Proof.
  intros H. pose proof (page_filename_longer out i) as L. rewrite H in L.
  cbn in L. lia.
Qed.

(** Reading the index back: padding does not change the number. *)
Lemma uint_of_zeros (k : nat) (s : string) (d : uint) :
  NilEmpty.uint_of_string s = Some d ->
  exists d', NilEmpty.uint_of_string (Py.zeros k +:+ s) = Some d' /\
             Nat.of_uint d' = Nat.of_uint d.
Proof.
  intros Hs. induction k as [|k (d' & Hd' & Hv)].
  - exists d. now rewrite StrFacts.app_nil_l.
  - exists (D0 d'). cbn [Py.zeros]. rewrite StrFacts.app_cons.
    cbn [NilEmpty.uint_of_string]. rewrite Hd'. split; [reflexivity|].
    rewrite <- Hv. reflexivity.
Qed.

Lemma int_of_fmt_03d (i : nat) : int_of_str (Py.fmt_03d i) = Some i.
Proof.
  unfold int_of_str, Py.fmt_03d, Py.str_of_nat.
  destruct (uint_of_zeros (3 - String.length (NilEmpty.string_of_uint (Nat.to_uint i)))
              (NilEmpty.string_of_uint (Nat.to_uint i)) (Nat.to_uint i)
              (NilEmpty.usu _)) as (d' & -> & Hv).
  cbn [option_map]. now rewrite Hv, Unsigned.of_to.
Qed.

Lemma fmt_03d_inj (i j : nat) : Py.fmt_03d i = Py.fmt_03d j -> i = j.
Proof.
  intros H. apply (f_equal int_of_str) in H.
  rewrite !int_of_fmt_03d in H. now injection H.
Qed.

Lemma page_filename_inj (out : string) (i j : nat) :
  page_filename out i = page_filename out j -> i = j.
Proof.
  unfold page_filename. intros H.
  apply (inj (String.append out)) in H.
  apply (inj (String.append "/page_")) in H.
  apply StrFacts.app_inv_tail in H. now apply fmt_03d_inj.
Qed.

(** Below one thousand the index takes exactly three digits. *)
Lemma fmt_03d_length (i : nat) :
  (i < 1000)%nat -> String.length (Py.fmt_03d i) = 3%nat.
Proof.
  intros Hi.
  assert (Hall : forallb (fun k => Nat.eqb (String.length (Py.fmt_03d k)) 3)
                   (seq 0 1000) = true) by (vm_compute; reflexivity).
  rewrite forallb_forall in Hall.
  apply Nat.eqb_eq, Hall, in_seq. lia.
Qed.

(** Every parent of a path is shorter than the path. *)
Lemma prefixes_shorter (p d : string) :
  In d (Fs.prefixes p) -> (String.length d < String.length p)%nat.
Proof.
  revert d. induction p as [|c p IH]; intros d Hd; [destruct Hd|].
  cbn [Fs.prefixes] in Hd. apply in_app_or in Hd as [Hd | Hd].
  - destruct (Ascii.eqb c "/"%char); [|destruct Hd].
    destruct Hd as [<- | []]. cbn. lia.
  - apply in_map_iff in Hd as (d' & <- & Hd'). cbn. apply IH in Hd'. lia.
Qed.

Lemma page_filename_not_parent (out : string) (i : nat) :
  page_filename out i ∉ Fs.parents out.
Proof.
  unfold Fs.parents. rewrite list_elem_of_filter, list_elem_of_In.
  intros [_ Hin]. apply prefixes_shorter in Hin.
  pose proof (page_filename_longer out i). lia.
Qed.

End NameFacts.

(** ** The crawl handler, writing files *)

Module CrawlFacts.

Lemma elem_of_dirs_with (out : string) (d : gset string) (x : string) :
  x ∈ dirs_with out d <-> x ∈ d \/ x ∈ Fs.parents out \/ x = out.
Proof.
  unfold dirs_with. rewrite !elem_of_union, elem_of_list_to_set, elem_of_singleton.
  tauto.
Qed.

Lemma mkdir_ok (w : World) (out : string) :
  Fs.can_mkdir w out = true ->
  Fs.mkdir_parents_exist_ok out w =
    (Ret tt, Fs.set_dirs (dirs_with out (w_dirs w)) w).
Proof.
  unfold Fs.can_mkdir, Fs.mkdir_parents_exist_ok. intros H.
  destruct (existsb (Fs.is_file w) (Fs.parents out)); [discriminate|].
  destruct (Fs.is_file w out); [discriminate|]. reflexivity.
Qed.

Lemma can_write_page (w : World) (out : string) (i : nat) :
  out ∈ w_dirs w -> w_files w !! out = None ->
  page_filename out i ∉ w_dirs w ->
  Fs.can_write w (page_filename out i) = true.
Proof.
  intros Hdir Hfile Hfree. unfold Fs.can_write.
  rewrite NameFacts.dirname_page_filename.
  rewrite (bool_decide_eq_false_2 _ (NameFacts.page_filename_nonempty out i)).
  rewrite (bool_decide_eq_false_2 _ Hfree).
  unfold Fs.is_file, Fs.is_dir. rewrite Hfile.
  rewrite (bool_decide_eq_true_2 _ Hdir), orb_true_r.
  rewrite bool_decide_eq_false_2; [reflexivity|]. now intros [? ?].
Qed.

Lemma for_each_save_page (out : string) (pages : list Document) :
  forall (k : nat) (w : World),
    out ∈ w_dirs w -> w_files w !! out = None ->
    (forall i, (k <= i < k + length pages)%nat -> page_filename out i ∉ w_dirs w) ->
    for_each (Py.enumerate_from k pages) (save_page out) w =
      (Ret tt, Fs.set_files (saved_from out k pages (w_files w)) w).
Proof.
  induction pages as [|page rest IH]; intros k w Hdir Hfile Hfree.
  - destruct w; reflexivity.
  - cbn [Py.enumerate_from for_each]. unfold bind at 1. unfold save_page.
    cbn [fst snd].
    rewrite FsFacts.open_then_write
      by (apply can_write_page; auto; apply Hfree; cbn; lia).
    rewrite IH.
    + reflexivity.
    + exact Hdir.
    + cbn. rewrite lookup_insert_ne; [exact Hfile|].
      apply NameFacts.page_filename_ne_out.
    + intros i Hi. cbn. apply Hfree. cbn. lia.
Qed.

Lemma saved_from_other (out : string) (pages : list Document) :
  forall k f p,
    (forall i, (k <= i < k + length pages)%nat -> p <> page_filename out i) ->
    saved_from out k pages f !! p = f !! p.
Proof.
  induction pages as [|page rest IH]; intros k f p Hp; [reflexivity|].
  cbn [saved_from]. rewrite IH.
  - rewrite lookup_insert_ne; [reflexivity|].
    intros E. apply (Hp k); [cbn; lia | now symmetry].
  - intros i Hi. apply Hp. cbn. lia.
Qed.

Lemma saved_from_lookup (out : string) (pages : list Document) :
  forall k f i page,
    pages !! i = Some page ->
    saved_from out k pages f !! page_filename out (k + i) = Some (page_bytes page).
Proof.
  induction pages as [|p0 rest IH]; intros k f i page Hi; [discriminate|].
  cbn [saved_from]. destruct i as [|i].
  - injection Hi as ->. rewrite Nat.add_0_r, saved_from_other.
    + apply lookup_insert_eq.
    + intros j Hj E. apply NameFacts.page_filename_inj in E. lia.
  - rewrite <- Nat.add_succ_comm. now apply IH.
Qed.

Lemma crawl_docs_run (ext : Externals) (url : string) (limit : Z)
    (w : World) (job : CrawlJob) :
  svc_crawl ext (w_env w !! "FIRECRAWL_API_KEY") (crawl_request url limit) = inr job ->
  crawl_docs ext url limit w = (Ret (data job), snd (sent (crawl_request url limit) w)).
Proof.
  intros Hsvc. unfold crawl_docs, call, bind, Firecrawl, getenv. cbn.
  unfold crawl_request in Hsvc. now rewrite Hsvc.
Qed.

(** Where a file found after the pages are saved comes from. *)
Lemma saved_from_inv (out : string) (pages : list Document) :
  forall k f p b,
    saved_from out k pages f !! p = Some b ->
    f !! p = Some b \/
    exists i page, pages !! i = Some page /\
                   p = page_filename out (k + i) /\ b = page_bytes page.
Proof.
  induction pages as [|p0 rest IH]; intros k f p b H; [now left|].
  cbn [saved_from] in H. apply IH in H as [H | (i & page & Hi & -> & ->)].
  - destruct (decide (page_filename out k = p)) as [<- | Hne].
    + rewrite lookup_insert_eq in H. injection H as <-.
      right. exists 0%nat, p0. now rewrite Nat.add_0_r.
    + rewrite lookup_insert_ne in H by exact Hne. now left.
  - right. exists (S i), page. now rewrite Nat.add_succ_comm.
Qed.

(** The whole run of a crawl that saves its pages. *)
Lemma crawl_save_run (ext : Externals) (argv : list string) (w : World)
    (url : string) (limit : Z) (out : string) (job : CrawlJob) :
  invoked ext argv w (NsCrawl url limit (Some out)) ->
  out <> EmptyString ->
  svc_crawl ext (w_env w !! "FIRECRAWL_API_KEY") (crawl_request url limit) = inr job ->
  Fs.can_mkdir w out = true ->
  (forall i, (i < length (data job))%nat -> page_filename out i ∉ w_dirs w) ->
  main ext argv w =
    (Ret tt,
     {| w_env := w_env w;
        w_files := saved_from out 0 (data job) (w_files w);
        w_dirs := dirs_with out (w_dirs w);
        w_stdout :=
          w_stdout w +:+
          ("Saved " +:+ Py.str_of_nat (length (data job)) +:+ " pages to "
             +:+ out +:+ "/") +:+ nl;
        w_stderr := w_stderr w;
        w_net := w_net w ++ [crawl_request url limit] |}).
Proof.
  intros Hinv Hout Hsvc Hmk Hfree.
  assert (Hnofile : w_files w !! out = None).
  { unfold Fs.can_mkdir in Hmk. apply andb_true_iff in Hmk as [_ Hf].
    apply negb_true_iff, bool_decide_eq_false in Hf.
    destruct (w_files w !! out) eqn:E; [|reflexivity].
    exfalso. apply Hf. eauto. }
  assert (Hin : out ∈ dirs_with out (w_dirs w))
    by (apply elem_of_dirs_with; auto).
  assert (Hfree' : forall i, (0 <= i < 0 + length (data job))%nat ->
                             page_filename out i ∉ dirs_with out (w_dirs w)).
  { intros i Hi. rewrite elem_of_dirs_with. intros [Hd | [Hp | Hn]].
    - revert Hd. apply Hfree. lia.
    - revert Hp. apply NameFacts.page_filename_not_parent.
    - revert Hn. apply NameFacts.page_filename_ne_out. }
  rewrite (main_dispatch ext argv w _ Hinv). unfold dispatch. unfold bind at 1.
  rewrite (crawl_docs_run ext url limit w job Hsvc).
  destruct out as [|c out']; [congruence|].
  unfold bind at 1. rewrite mkdir_ok by exact Hmk.
  unfold bind at 1. unfold Py.enumerate.
  rewrite for_each_save_page;
    [reflexivity | exact Hin | exact Hnofile | exact Hfree'].
Qed.

End CrawlFacts.

(** C6: a crawl invocation with an output directory [out], on a disk where
    [out] can be made and no page file name is taken by a directory.
    The directory and its parents exist afterwards, directories that were
    there stay, and nothing changes when they all existed already.  The
    page at position [i] of the service's list is in the file
    [out/page_<index>.md], whose index is [i] written in decimal and padded
    with zeros to at least three digits: exactly three below position
    1000, the number in full from there on.  The file holds the page's
    markdown, or nothing when the page has none.  No other file is
    touched, and the handler prints [Saved <n> pages to <out>/]. *)
Theorem crawl_saves_pages (ext : Externals) (argv : list string) (w : World)
    (url : string) (limit : Z) (out : string) (job : CrawlJob) :
  invoked ext argv w (NsCrawl url limit (Some out)) ->
  out <> EmptyString ->
  svc_crawl ext (w_env w !! "FIRECRAWL_API_KEY") (crawl_request url limit) = inr job ->
  Fs.can_mkdir w out = true ->
  (forall i, (i < length (data job))%nat -> page_filename out i ∉ w_dirs w) ->
  let files' := saved_from out 0 (data job) (w_files w) in
  let dirs' := dirs_with out (w_dirs w) in
  main ext argv w =
    (Ret tt,
     {| w_env := w_env w; w_files := files'; w_dirs := dirs';
        w_stdout :=
          w_stdout w +:+
          ("Saved " +:+ Py.str_of_nat (length (data job)) +:+ " pages to "
             +:+ out +:+ "/") +:+ nl;
        w_stderr := w_stderr w;
        w_net := w_net w ++ [crawl_request url limit] |}) /\
  (forall i page,
     data job !! i = Some page ->
     files' !! (out +:+ "/page_" +:+ Py.fmt_03d i +:+ ".md") =
       Some (list_byte_of_string
               match markdown page with Some md => md | None => "" end)) /\
  (forall p,
     (forall i, (i < length (data job))%nat -> p <> page_filename out i) ->
     files' !! p = w_files w !! p) /\
  (forall i, int_of_str (Py.fmt_03d i) = Some i /\
             ((i < 1000)%nat -> String.length (Py.fmt_03d i) = 3%nat)) /\
  out ∈ dirs' /\
  (forall d, d ∈ Fs.parents out -> d ∈ dirs') /\
  w_dirs w ⊆ dirs' /\
  (out ∈ w_dirs w -> (forall d, d ∈ Fs.parents out -> d ∈ w_dirs w) ->
   dirs' = w_dirs w).
Proof.
  intros Hinv Hout Hsvc Hmk Hfree. cbv zeta.
  repeat split.
  - now apply CrawlFacts.crawl_save_run.
  - intros i page Hi.
    pose proof (CrawlFacts.saved_from_lookup out (data job) 0 (w_files w) i page Hi) as H.
    cbn [Nat.add] in H. unfold page_filename in H. rewrite H.
    unfold page_bytes. now destruct (markdown page) as [[|? ?]|].
  - intros p Hp. apply CrawlFacts.saved_from_other. intros i Hi. apply Hp. lia.
  - apply NameFacts.int_of_fmt_03d.
  - apply NameFacts.fmt_03d_length.
  - apply CrawlFacts.elem_of_dirs_with. auto.
  - intros d Hd. apply CrawlFacts.elem_of_dirs_with. auto.
  - intros d Hd. apply CrawlFacts.elem_of_dirs_with. auto.
  - intros H1 H2. apply set_eq. intros d. rewrite CrawlFacts.elem_of_dirs_with.
    split; [intros [Hd | [Hd | ->]]; auto | auto].
Qed.

Lemma crawl_saves_pages_witness :
  let pages := [Demo.page (Some "A") None; Demo.page (Some "B") None;
                Demo.page (Some "") None] in
  let ext := Demo.externals (Demo.shot "") {| web := None |} pages [] in
  let w := Demo.world (Some "fc-key") ∅ in
  main ext ["crawl"; "https://example.org"; "--output"; "docs"] w =
    (Ret tt,
     {| w_env := w_env w;
        w_files := {[ "docs/page_000.md" := [x41];
                      "docs/page_001.md" := [x42];
                      "docs/page_002.md" := [] ]};
        w_dirs := {[ "docs" ]};
        w_stdout := "Saved 3 pages to docs/" +:+ nl;
        w_stderr := "";
        w_net := [crawl_request "https://example.org" 50] |}).
Proof.
  intros pages ext w.
  assert (Hinv : invoked ext ["crawl"; "https://example.org"; "--output"; "docs"] w
                   (NsCrawl "https://example.org" 50 (Some "docs")))
    by (split; reflexivity).
  assert (Hne : "docs" <> EmptyString) by discriminate.
  assert (Hfree : forall i, (i < length (data {| data := pages |}))%nat ->
                            page_filename "docs" i ∉ w_dirs w)
    by (intros i _; apply not_elem_of_empty).
  exact (proj1 (crawl_saves_pages ext _ w "https://example.org" 50 "docs"
                  {| data := pages |} Hinv Hne eq_refl eq_refl Hfree)).
Defined.

(** ** The crawl handler, printing *)

(** A page without metadata is headed [Untitled] and followed by the first
    1000 characters of its markdown. *)
Lemma print_page_no_metadata (page : Document) (w : World) :
  metadata page = None ->
  w_stdout (snd (print_page page w)) =
    w_stdout w +:+ "## Untitled" +:+ nl +:+
    Py.take 1000 (Py.or_str (markdown page) "") +:+ nl +:+
    nl +:+ "---" +:+ nl +:+ nl.
Proof.
  intros Hmeta. unfold print_page, bind, print. rewrite Hmeta. cbn.
  rewrite !StrFacts.app_assoc. now destruct (markdown page) as [[|c md]|].
Qed.

(** A page whose metadata carries a title is headed by that title. *)
Lemma print_page_title (page : Document) (m : Metadata) (t : string) (w : World) :
  metadata page = Some m -> title m = Some t ->
  w_stdout (snd (print_page page w)) =
    w_stdout w +:+ "## " +:+ t +:+ nl +:+
    Py.take 1000 (Py.or_str (markdown page) "") +:+ nl +:+
    nl +:+ "---" +:+ nl +:+ nl.
Proof.
  intros Hmeta Htitle. unfold print_page, bind, print. rewrite Hmeta, Htitle. cbn.
  rewrite !StrFacts.app_assoc. now destruct (markdown page) as [[|c md]|].
Qed.

(** C2: a crawl without an output directory whose single page has metadata
    but no title in it.  The heading printed is [## None], not
    [## Untitled]: the fallback is taken only when the metadata as a whole
    is missing. *)
Theorem crawl_heading_without_title :
  let page := Demo.page (Some "Body") (Some {| title := None |}) in
  let ext := Demo.externals (Demo.shot "") {| web := None |} [page] [] in
  main ext ["crawl"; "https://example.org"] (Demo.world (Some "fc-key") ∅) =
    (Ret tt,
     {| w_env := {[ "FIRECRAWL_API_KEY" := "fc-key" ]};
        w_files := ∅; w_dirs := ∅;
        w_stdout := "## None" +:+ nl +:+ "Body" +:+ nl +:+
                    nl +:+ "---" +:+ nl +:+ nl;
        w_stderr := "";
        w_net := [crawl_request "https://example.org" 50] |}).
Proof. vm_compute. reflexivity. Qed.

(** C6 as stated fails at a crawl that returns 1001 pages: the page at
    position 1000 is saved as [docs/page_1000.md], under an index of four
    digits, and no file with a three-character index holds it. *)
Lemma crawl_index_beyond_999 :
  let pages := replicate 1000 (Demo.page (Some "x") None)
               ++ [Demo.page (Some "last") None] in
  let ext := Demo.externals (Demo.shot "") {| web := None |} pages [] in
  let files' :=
    w_files (snd (main ext ["crawl"; "https://example.org"; "--output"; "docs"]
                    (Demo.world (Some "fc-key") ∅))) in
  pages !! 1000%nat = Some (Demo.page (Some "last") None) /\
  files' !! "docs/page_1000.md" = Some (list_byte_of_string "last") /\
  forall idx, String.length idx = 3%nat ->
    files' !! ("docs/page_" +:+ idx +:+ ".md") <> Some (list_byte_of_string "last").
Proof.
  intros pages ext files'.
  assert (Hat : pages !! 1000%nat = Some (Demo.page (Some "last") None)).
  { subst pages. rewrite lookup_app_r by (rewrite length_replicate; lia).
    rewrite length_replicate, Nat.sub_diag. reflexivity. }
  assert (Hrun : files' = saved_from "docs" 0 pages ∅).
  { assert (Hinv : invoked ext ["crawl"; "https://example.org"; "--output"; "docs"]
                     (Demo.world (Some "fc-key") ∅)
                     (NsCrawl "https://example.org" 50 (Some "docs")))
      by (split; reflexivity).
    assert (Hne : "docs" <> EmptyString) by discriminate.
    assert (Hfree : forall i, (i < length (data {| data := pages |}))%nat ->
                      page_filename "docs" i ∉ w_dirs (Demo.world (Some "fc-key") ∅))
      by (intros i _; apply not_elem_of_empty).
    pose proof (CrawlFacts.crawl_save_run ext _ _ "https://example.org" 50 "docs"
                  {| data := pages |} Hinv Hne eq_refl eq_refl Hfree) as Hmain.
    exact (f_equal (fun r => w_files (snd r)) Hmain). }
  split; [exact Hat|]. rewrite Hrun. split.
  - exact (CrawlFacts.saved_from_lookup "docs" pages 0 ∅ 1000 _ Hat).
  - intros idx Hlen Hlook.
    apply CrawlFacts.saved_from_inv in Hlook as [H | (i & page & Hi & Hname & Hb)].
    + rewrite lookup_empty in H. discriminate H.
    + destruct (decide (i < 1000)%nat) as [Hlt | Hge].
      * subst pages. rewrite lookup_app_l in Hi by (rewrite length_replicate; lia).
        apply lookup_replicate in Hi as [-> _]. discriminate Hb.
      * assert (i = 1000%nat) as ->.
        { apply lookup_lt_Some in Hi. subst pages.
          rewrite length_app, length_replicate in Hi. cbn in Hi. lia. }
        change (page_filename "docs" (0 + 1000))
          with ("docs/page_" +:+ "1000" +:+ ".md") in Hname.
        apply (inj (String.append "docs/page_")) in Hname.
        apply StrFacts.app_inv_tail in Hname. subst idx. discriminate Hlen.
Qed.

(** ** Further properties of the dispatcher *)

(** X1: a credential that is set but empty counts as missing: the run ends
    like one without the variable, with the message on the error stream
    and exit code 1, whatever the command line. *)
Theorem empty_credential_exits_1 (ext : Externals) (argv : list string) (w : World) :
  w_env w !! "FIRECRAWL_API_KEY" = Some EmptyString ->
  main ext argv w =
    (Exit 1,
     {| w_env := w_env w; w_files := w_files w; w_dirs := w_dirs w;
        w_stdout := w_stdout w;
        w_stderr := w_stderr w +:+ "FIRECRAWL_API_KEY not set in environment." +:+ nl;
        w_net := w_net w |}).
Proof.
  intros Hkey. unfold main, bind, getenv. rewrite Hkey. reflexivity.
Qed.

Lemma empty_credential_exits_1_witness :
  exit_code (fst (main (Demo.externals (Demo.shot "") {| web := None |} [] [])
                       ["search"; "provers"] (Demo.world (Some "") ∅))) = 1.
Proof.
  rewrite (empty_credential_exits_1
             (Demo.externals (Demo.shot "") {| web := None |} [] [])
             ["search"; "provers"] (Demo.world (Some "") ∅)).
  - reflexivity.
  - reflexivity.
Defined.

(** X2: with the credential set, a command line the parser turns down ends
    the process with the parser's exit code and the parser's text on the
    streams; no handler runs, so nothing is sent and the disk is
    untouched. *)
Theorem rejected_command_line_sends_nothing (ext : Externals) (argv : list string)
    (w : World) (code : Z) (out err : string) :
  Py.truthy (w_env w !! "FIRECRAWL_API_KEY") = true ->
  parse_args ext argv = ParseExit code out err ->
  main ext argv w =
    (Exit code,
     {| w_env := w_env w; w_files := w_files w; w_dirs := w_dirs w;
        w_stdout := w_stdout w +:+ out; w_stderr := w_stderr w +:+ err;
        w_net := w_net w |}).
Proof.
  intros Hkey Hparse. unfold main, bind, getenv, argparse.
  rewrite Hkey, Hparse. reflexivity.
Qed.

Lemma rejected_command_line_sends_nothing_witness :
  let ext := Demo.externals (Demo.shot "") {| web := None |} [] [] in
  let r := main ext ["teleport"; "https://example.org"] (Demo.world (Some "fc-key") ∅) in
  fst r = Exit 2 /\ w_net (snd r) = [] /\ w_stdout (snd r) = "".
Proof.
  intros ext r. subst r.
  rewrite (rejected_command_line_sends_nothing ext
             ["teleport"; "https://example.org"] (Demo.world (Some "fc-key") ∅)
             2 "" ("usage: fc.py [-h] {markdown,screenshot,extract,search,crawl} ..." +:+ nl)).
  - repeat split.
  - reflexivity.
  - reflexivity.
Defined.

(** X3: when the service raises on the request a markdown, screenshot,
    search or crawl invocation starts with, the same exception ends the
    run; the request is the only trace: nothing is printed, no file or
    directory is made. *)
Theorem remote_error_propagates (ext : Externals) (argv : list string)
    (w : World) (ns : Namespace) (r : Request) (e : exn) :
  invoked ext argv w ns ->
  first_request ns = Some r ->
  service_error ext (w_env w !! "FIRECRAWL_API_KEY") r = Some e ->
  main ext argv w =
    (Raise e,
     {| w_env := w_env w; w_files := w_files w; w_dirs := w_dirs w;
        w_stdout := w_stdout w; w_stderr := w_stderr w;
        w_net := w_net w ++ [r] |}).
Proof.
  intros Hinv Hreq Herr. rewrite (main_dispatch ext argv w ns Hinv).
  destruct ns as [url m | url o | url sp pr | q l | url l o];
    cbn in Hreq; try discriminate; injection Hreq as <-;
    unfold dispatch, scrape_markdown, take_screenshot, search_web, crawl_docs,
      call, bind, Firecrawl, getenv; cbn [sent fst snd];
    unfold service_error, markdown_request, screenshot_request, crawl_request in Herr.
  - destruct m; cbn [negb] in Herr |- *;
      (destruct (svc_scrape ext _ _); [|discriminate]);
      injection Herr as ->; reflexivity.
  - destruct (svc_scrape ext _ _); [|discriminate]. injection Herr as ->. reflexivity.
  - destruct (svc_search ext _ _); [|discriminate]. injection Herr as ->. reflexivity.
  - destruct (svc_crawl ext _ _); [|discriminate]. injection Herr as ->. reflexivity.
Qed.

(** X4: a markdown invocation prints the markdown the service returned,
    as it is, followed by a newline; a document without markdown makes it
    print the word [None]. *)
Theorem markdown_prints_verbatim (ext : Externals) (argv : list string)
    (w : World) (url : string) (main_only : bool) (doc : Document) :
  invoked ext argv w (NsMarkdown url main_only) ->
  svc_scrape ext (w_env w !! "FIRECRAWL_API_KEY") (markdown_request url main_only)
    = inr doc ->
  main ext argv w =
    (Ret tt,
     {| w_env := w_env w; w_files := w_files w; w_dirs := w_dirs w;
        w_stdout := w_stdout w +:+
                    match markdown doc with Some md => md | None => "None" end
                    +:+ nl;
        w_stderr := w_stderr w;
        w_net := w_net w ++ [markdown_request url main_only] |}).
Proof.
  intros Hinv Hsvc. rewrite (main_dispatch ext argv w _ Hinv).
  unfold dispatch, scrape_markdown, call, bind, Firecrawl, getenv. cbn [sent fst snd].
  unfold markdown_request in Hsvc.
  destruct main_only; rewrite Hsvc; reflexivity.
Qed.

Lemma remote_error_propagates_witness :
  let ext := service_down (RemoteError "rate limited")
               (Demo.externals (Demo.shot "") {| web := None |} [] []) in
  let w := Demo.world (Some "fc-key") ∅ in
  main ext ["crawl"; "https://example.org"; "--output"; "docs"] w =
    (Raise (RemoteError "rate limited"),
     {| w_env := w_env w; w_files := ∅; w_dirs := ∅;
        w_stdout := ""; w_stderr := "";
        w_net := [crawl_request "https://example.org" 50] |}).
Proof.
  intros ext w.
  assert (Hinv : invoked ext ["crawl"; "https://example.org"; "--output"; "docs"] w
                   (NsCrawl "https://example.org" 50 (Some "docs")))
    by (split; reflexivity).
  exact (remote_error_propagates ext _ w _ (crawl_request "https://example.org" 50)
           (RemoteError "rate limited") Hinv eq_refl eq_refl).
Defined.

Lemma markdown_prints_verbatim_witness :
  let ext := Demo.externals (Demo.page (Some "# Title") None) {| web := None |} [] [] in
  let w := Demo.world (Some "fc-key") ∅ in
  w_stdout (snd (main ext ["markdown"; "https://example.org"] w)) = "# Title" +:+ nl.
Proof.
  intros ext w.
  assert (Hinv : invoked ext ["markdown"; "https://example.org"] w
                   (NsMarkdown "https://example.org" false))
    by (split; reflexivity).
  exact (f_equal (fun r => w_stdout (snd r))
           (markdown_prints_verbatim ext _ w "https://example.org" false
              (Demo.page (Some "# Title") None) Hinv eq_refl)).
Defined.

(** ** Further properties of the extraction handler *)

(** X5: with a schema file that holds valid JSON, an extract invocation
    sends one scrape request whose only format is the JSON format with
    that schema; the prompt goes along only when it is given and not
    empty.  If the service answers, the returned value is printed as
    [json.dumps] renders it; if it raises, the exception ends the run and
    nothing is printed. *)
Theorem extract_run (ext : Externals) (argv : list string) (w : World)
    (url path : string) (prompt : option string) (c : list byte) (schema : Json) :
  invoked ext argv w (NsExtract url path prompt) ->
  w_files w !! path = Some c ->
  json_loads ext (string_of_list_byte c) = Some schema ->
  main ext argv w =
    match svc_scrape ext (w_env w !! "FIRECRAWL_API_KEY")
            (extract_request url schema prompt) with
    | inr doc =>
        (Ret tt,
         {| w_env := w_env w; w_files := w_files w; w_dirs := w_dirs w;
            w_stdout := w_stdout w +:+ json_dumps ext (json doc) +:+ nl;
            w_stderr := w_stderr w;
            w_net := w_net w ++ [extract_request url schema prompt] |})
    | inl e =>
        (Raise e,
         {| w_env := w_env w; w_files := w_files w; w_dirs := w_dirs w;
            w_stdout := w_stdout w; w_stderr := w_stderr w;
            w_net := w_net w ++ [extract_request url schema prompt] |})
    end.
Proof.
  intros Hinv Hfile Hjson. rewrite (main_dispatch ext argv w _ Hinv).
  unfold dispatch, Fs.read_text. unfold bind at 1. rewrite Hfile.
  unfold bind at 1. rewrite Hjson. unfold ret at 1.
  unfold extract_data, call, bind, Firecrawl, getenv. cbn [sent fst snd].
  unfold extract_request.
  destruct (svc_scrape ext _ _); reflexivity.
Qed.

Lemma extract_run_witness :
  let ext := Demo.externals (Demo.page None None) {| web := None |} [] [] in
  let w := Demo.world (Some "fc-key") {[ "schema.json" := list_byte_of_string "{}" ]} in
  main ext ["extract"; "https://example.org"; "--schema"; "schema.json"] w =
    (Ret tt,
     {| w_env := w_env w; w_files := w_files w; w_dirs := ∅;
        w_stdout := "null" +:+ nl; w_stderr := "";
        w_net := [extract_request "https://example.org" (JObj []) None] |}).
Proof.
  intros ext w.
  assert (Hinv : invoked ext
                   ["extract"; "https://example.org"; "--schema"; "schema.json"] w
                   (NsExtract "https://example.org" "schema.json" None))
    by (split; reflexivity).
  exact (extract_run ext _ w "https://example.org" "schema.json" None
           (list_byte_of_string "{}") (JObj []) Hinv eq_refl eq_refl).
Defined.

(** ** Further properties of the screenshot handler *)

Lemma open_write_refused (w : World) (p : string) :
  Fs.can_write w p = false ->
  exists e, Fs.open_write p w = (Raise e, w).
Proof.
  unfold Fs.can_write, Fs.open_write. intros H.
  destruct (bool_decide (p = "")); [eauto|].
  destruct (bool_decide (p ∈ w_dirs w)); [eauto|].
  destruct (Fs.is_file w (Fs.dirname p)); [eauto|].
  cbn in H. rewrite H. eauto.
Qed.

Lemma split_comma_none (s : string) :
  comma_free s = true -> snd (Py.split_comma s) = None.
Proof.
  unfold comma_free. induction s as [|c s IH]; intros H; [reflexivity|].
  cbn [list_ascii_of_string existsb] in H. cbn [Py.split_comma].
  rewrite (Ascii.eqb_sym c ","%char).
  destruct (Ascii.eqb ","%char c); [discriminate|].
  cbn [orb] in H. specialize (IH H).
  destruct (Py.split_comma s) as [a b]. exact IH.
Qed.

(** X6: when the document the service returns has no screenshot, the
    handler fails with [AttributeError] on the first use of the missing
    string; the request has been sent, nothing is printed or written. *)
Theorem screenshot_missing_raises (ext : Externals) (argv : list string)
    (w : World) (url : string) (output : option string) (doc : Document) :
  invoked ext argv w (NsScreenshot url output) ->
  svc_scrape ext (w_env w !! "FIRECRAWL_API_KEY") (screenshot_request url) = inr doc ->
  screenshot doc = None ->
  main ext argv w =
    (Raise AttributeError,
     {| w_env := w_env w; w_files := w_files w; w_dirs := w_dirs w;
        w_stdout := w_stdout w; w_stderr := w_stderr w;
        w_net := w_net w ++ [screenshot_request url] |}).
Proof.
  intros Hinv Hsvc Hnone. rewrite (main_dispatch ext argv w _ Hinv).
  unfold dispatch, take_screenshot, call, bind, Firecrawl, getenv. cbn [sent fst snd].
  unfold screenshot_request in Hsvc. rewrite Hsvc. unfold ret. now rewrite Hnone.
Qed.

Lemma screenshot_missing_raises_witness :
  let ext := Demo.externals (Demo.page (Some "text only") None) {| web := None |} [] [] in
  let w := Demo.world (Some "fc-key") ∅ in
  fst (main ext ["screenshot"; "https://example.org"] w) = Raise AttributeError.
Proof.
  intros ext w.
  assert (Hinv : invoked ext ["screenshot"; "https://example.org"] w
                   (NsScreenshot "https://example.org" None))
    by (split; reflexivity).
  exact (f_equal fst
           (screenshot_missing_raises ext _ w "https://example.org" None
              (Demo.page (Some "text only") None) Hinv eq_refl eq_refl)).
Defined.

(** X7: a result that begins with [data:image] but contains no comma makes
    the handler fail with [IndexError] when it takes the second part of
    the split; this happens before the output file is opened, so the disk
    is untouched even when a path was given, and nothing is printed. *)
Theorem screenshot_data_without_comma_raises (ext : Externals) (argv : list string)
    (w : World) (url : string) (output : option string) (doc : Document)
    (s : string) :
  invoked ext argv w (NsScreenshot url output) ->
  svc_scrape ext (w_env w !! "FIRECRAWL_API_KEY") (screenshot_request url) = inr doc ->
  screenshot doc = Some s ->
  Py.startswith s "data:image" = true ->
  comma_free s = true ->
  main ext argv w =
    (Raise IndexError,
     {| w_env := w_env w; w_files := w_files w; w_dirs := w_dirs w;
        w_stdout := w_stdout w; w_stderr := w_stderr w;
        w_net := w_net w ++ [screenshot_request url] |}).
Proof.
  intros Hinv Hsvc Hshot Hdata Hfree. rewrite (main_dispatch ext argv w _ Hinv).
  unfold dispatch. unfold bind at 1.
  rewrite (take_screenshot_run ext url output w doc s Hsvc Hshot). cbn zeta.
  rewrite (data_image_not_http s Hdata), Hdata, (split_comma_none s Hfree).
  reflexivity.
Qed.

Lemma screenshot_data_without_comma_raises_witness :
  let ext := Demo.externals (Demo.shot "data:image/png;base64") {| web := None |} [] [] in
  let w := Demo.world (Some "fc-key") ∅ in
  let r := main ext ["screenshot"; "https://example.org"; "--output"; "shot.png"] w in
  fst r = Raise IndexError /\ w_files (snd r) = ∅.
Proof.
  intros ext w r. subst r.
  assert (Hinv : invoked ext
                   ["screenshot"; "https://example.org"; "--output"; "shot.png"] w
                   (NsScreenshot "https://example.org" (Some "shot.png")))
    by (split; reflexivity).
  rewrite (screenshot_data_without_comma_raises ext _ w "https://example.org"
             (Some "shot.png") (Demo.shot "data:image/png;base64")
             "data:image/png;base64" Hinv eq_refl eq_refl eq_refl eq_refl).
  split; reflexivity.
Defined.

(** X8: the output file is opened before the payload is decoded.  When the
    payload is not valid base64 the run ends with the decoder's exception,
    nothing is printed, and the file at the path is left empty: it has
    been created, or what it held is gone. *)
Theorem screenshot_bad_base64_empties_file (ext : Externals) (argv : list string)
    (w : World) (url path : string) (doc : Document) (s payload : string) :
  invoked ext argv w (NsScreenshot url (Some path)) ->
  svc_scrape ext (w_env w !! "FIRECRAWL_API_KEY") (screenshot_request url) = inr doc ->
  screenshot doc = Some s ->
  is_locator s = false ->
  payload_of s = Some payload ->
  Fs.can_write w path = true ->
  b64decode ext payload = None ->
  main ext argv w =
    (Raise BinasciiError,
     {| w_env := w_env w; w_files := <[ path := [] ]> (w_files w);
        w_dirs := w_dirs w;
        w_stdout := w_stdout w; w_stderr := w_stderr w;
        w_net := w_net w ++ [screenshot_request url] |}).
Proof.
  intros Hinv Hsvc Hshot Hloc Hpay Hcw Hdec.
  rewrite (main_dispatch ext argv w _ Hinv). unfold dispatch. unfold bind at 1.
  rewrite (take_screenshot_run ext url _ w doc s Hsvc Hshot). cbn zeta.
  unfold is_locator in Hloc. rewrite Hloc. unfold payload_of in Hpay.
  assert (Hpayload :
    (if Py.startswith s "data:image"
     then match snd (Py.split_comma s) with
          | Some rest => ret rest
          | None => raise IndexError
          end
     else ret s) (snd (sent (screenshot_request url) w))
    = (Ret payload, snd (sent (screenshot_request url) w))).
  { destruct (Py.startswith s "data:image").
    - now rewrite Hpay.
    - now injection Hpay as ->. }
  unfold bind at 1. rewrite Hpayload.
  destruct path as [|c p]; [discriminate|].
  unfold save_or_count, bind. rewrite FsFacts.open_write_ok by exact Hcw.
  rewrite Hdec. reflexivity.
Qed.

Lemma screenshot_bad_base64_empties_file_witness :
  let ext := Demo.externals (Demo.shot "A") {| web := None |} [] [] in
  let w := Demo.world (Some "fc-key") {[ "shot.png" := [x89; x50; x4e; x47] ]} in
  let r := main ext ["screenshot"; "https://example.org"; "--output"; "shot.png"] w in
  fst r = Raise BinasciiError /\ w_files (snd r) !! "shot.png" = Some [].
Proof.
  intros ext w r. subst r.
  assert (Hinv : invoked ext
                   ["screenshot"; "https://example.org"; "--output"; "shot.png"] w
                   (NsScreenshot "https://example.org" (Some "shot.png")))
    by (split; reflexivity).
  rewrite (screenshot_bad_base64_empties_file ext _ w "https://example.org"
             "shot.png" (Demo.shot "A") "A" "A"
             Hinv eq_refl eq_refl eq_refl eq_refl eq_refl eq_refl).
  split; reflexivity.
Defined.



(** X10: when the output path of a screenshot invocation cannot be opened
    for writing (it is a directory, or the directory it lies in is
    missing), the run ends with an exception whatever the service
    returned; nothing is printed and no file is changed. *)
Theorem screenshot_unwritable_path_raises (ext : Externals) (argv : list string)
    (w : World) (url path : string) (doc : Document) :
  invoked ext argv w (NsScreenshot url (Some path)) ->
  path <> EmptyString ->
  svc_scrape ext (w_env w !! "FIRECRAWL_API_KEY") (screenshot_request url) = inr doc ->
  Fs.can_write w path = false ->
  exists e,
    fst (main ext argv w) = Raise e /\
    w_files (snd (main ext argv w)) = w_files w /\
    w_dirs (snd (main ext argv w)) = w_dirs w /\
    w_stdout (snd (main ext argv w)) = w_stdout w.
Proof.
  intros Hinv Hpath Hsvc Hcw.
  assert (Hts : exists e w',
             take_screenshot ext url (Some path) w = (Raise e, w') /\
             w_files w' = w_files w /\ w_dirs w' = w_dirs w /\
             w_stdout w' = w_stdout w).
  { destruct (screenshot doc) as [s|] eqn:Hshot.
    - rewrite (take_screenshot_run ext url _ w doc s Hsvc Hshot). cbn zeta.
      set (w1 := snd (sent (screenshot_request url) w)).
      assert (Hcw1 : Fs.can_write w1 path = false) by exact Hcw.
      destruct (open_write_refused w1 path Hcw1) as [e He].
      destruct path as [|c p]; [congruence|].
      destruct (Py.startswith s "http://" || Py.startswith s "https://").
      + unfold urlretrieve, bind. cbn [sent snd].
        destruct (url_fetch ext s) as [e'|body].
        * exists e'. eexists. split; [reflexivity|]. repeat split.
        * assert (Hcw2 : Fs.can_write (snd (sent (ReqFetch s) w1)) (String c p) = false)
            by exact Hcw.
          destruct (open_write_refused _ _ Hcw2) as [e2 He2].
          exists e2. eexists. unfold bind. cbn [sent snd] in He2 |- *.
          rewrite He2. split; [reflexivity|]. repeat split.
      + unfold bind at 1.
        destruct (Py.startswith s "data:image").
        * destruct (snd (Py.split_comma s)) as [rest|].
          -- exists e. eexists. unfold ret at 1, save_or_count, bind. rewrite He.
             split; [reflexivity|]. repeat split.
          -- exists IndexError. eexists. split; [reflexivity|]. repeat split.
        * exists e. eexists. unfold ret at 1, save_or_count, bind. rewrite He.
          split; [reflexivity|]. repeat split.
    - exists AttributeError. eexists.
      unfold take_screenshot, call, bind, Firecrawl, getenv. cbn [sent fst snd].
      unfold screenshot_request in Hsvc. rewrite Hsvc. unfold ret. rewrite Hshot.
      split; [reflexivity|]. repeat split. }
  destruct Hts as (e & w' & Hrun & Hf & Hd & Ho). exists e.
  rewrite (main_dispatch ext argv w _ Hinv). unfold dispatch, bind.
  rewrite Hrun. cbn [fst snd]. auto.
Qed.

Lemma screenshot_unwritable_path_raises_witness :
  let ext := Demo.externals (Demo.shot "AAAA") {| web := None |} [] [] in
  let w := Demo.world (Some "fc-key") ∅ in
  let argv := ["screenshot"; "https://example.org"; "--output"; "missing/shot.png"] in
  exists e,
    fst (main ext argv w) = Raise e /\
    w_files (snd (main ext argv w)) = w_files w /\
    w_dirs (snd (main ext argv w)) = w_dirs w /\
    w_stdout (snd (main ext argv w)) = w_stdout w.
Proof.
  intros ext w argv.
  assert (Hinv : invoked ext argv w
                   (NsScreenshot "https://example.org" (Some "missing/shot.png")))
    by (split; reflexivity).
  assert (Hne : "missing/shot.png" <> EmptyString) by discriminate.
  exact (screenshot_unwritable_path_raises ext argv w "https://example.org"
           "missing/shot.png" (Demo.shot "AAAA") Hinv Hne eq_refl eq_refl).
Defined.

(** ** Further properties of the crawl handler *)





Lemma mkdir_refused (w : World) (out : string) :
  Fs.can_mkdir w out = false ->
  exists e, Fs.mkdir_parents_exist_ok out w = (Raise e, w).
Proof.
  unfold Fs.can_mkdir, Fs.mkdir_parents_exist_ok. intros H.
  destruct (existsb (Fs.is_file w) (Fs.parents out)); [eauto|].
  destruct (Fs.is_file w out); [eauto | discriminate].
Qed.

(** X12: the pages are fetched before the output directory is looked at.
    When the directory cannot be made, because its name or the name of one
    of its parents belongs to a regular file, the run ends with an
    exception after the crawl request has been sent; no page is written
    and nothing is printed. *)
Theorem crawl_blocked_directory_raises (ext : Externals) (argv : list string)
    (w : World) (url : string) (limit : Z) (out : string) (job : CrawlJob) :
  invoked ext argv w (NsCrawl url limit (Some out)) ->
  out <> EmptyString ->
  svc_crawl ext (w_env w !! "FIRECRAWL_API_KEY") (crawl_request url limit) = inr job ->
  Fs.can_mkdir w out = false ->
  exists e,
    main ext argv w =
      (Raise e,
       {| w_env := w_env w; w_files := w_files w; w_dirs := w_dirs w;
          w_stdout := w_stdout w; w_stderr := w_stderr w;
          w_net := w_net w ++ [crawl_request url limit] |}).
Proof.
  intros Hinv Hout Hsvc Hmk. rewrite (main_dispatch ext argv w _ Hinv).
  unfold dispatch. unfold bind at 1.
  rewrite (CrawlFacts.crawl_docs_run ext url limit w job Hsvc).
  destruct out as [|c out']; [congruence|].
  assert (Hmk1 : Fs.can_mkdir (snd (sent (crawl_request url limit) w))
                   (String c out') = false) by exact Hmk.
  destruct (mkdir_refused _ _ Hmk1) as [e He].
  exists e. unfold bind at 1. rewrite He. reflexivity.
Qed.

Lemma crawl_blocked_directory_raises_witness :
  let pages := [Demo.page (Some "A") None] in
  let ext := Demo.externals (Demo.shot "") {| web := None |} pages [] in
  let w := Demo.world (Some "fc-key") {[ "docs" := [x41] ]} in
  exists e,
    main ext ["crawl"; "https://example.org"; "--output"; "docs"] w =
      (Raise e,
       {| w_env := w_env w; w_files := w_files w; w_dirs := w_dirs w;
          w_stdout := ""; w_stderr := "";
          w_net := [crawl_request "https://example.org" 50] |}).
Proof.
  intros pages ext w.
  assert (Hinv : invoked ext ["crawl"; "https://example.org"; "--output"; "docs"] w
                   (NsCrawl "https://example.org" 50 (Some "docs")))
    by (split; reflexivity).
  assert (Hne : "docs" <> EmptyString) by discriminate.
  exact (crawl_blocked_directory_raises ext _ w "https://example.org" 50 "docs"
           {| data := pages |} Hinv Hne eq_refl eq_refl).
Defined.

Lemma save_stops_at_directory (out : string) (page : Document)
    (rest : list Document) (pre : list Document) :
  forall (k : nat) (w : World),
    out ∈ w_dirs w -> w_files w !! out = None ->
    (forall i, (k <= i < k + length pre)%nat -> page_filename out i ∉ w_dirs w) ->
    page_filename out (k + length pre) ∈ w_dirs w ->
    for_each (Py.enumerate_from k (pre ++ page :: rest)) (save_page out) w =
      (Raise IsADirectoryError,
       Fs.set_files (saved_from out k pre (w_files w)) w).
Proof.
  induction pre as [|p0 pre IH]; intros k w Hdir Hfile Hfree Hblocked.
  - cbn [length] in Hblocked. rewrite Nat.add_0_r in Hblocked.
    cbn [app Py.enumerate_from for_each saved_from].
    unfold bind at 1. unfold save_page. cbn [fst snd].
    unfold bind, Fs.open_write.
    rewrite (bool_decide_eq_false_2 _ (NameFacts.page_filename_nonempty out k)).
    rewrite (bool_decide_eq_true_2 _ Hblocked). destruct w; reflexivity.
  - cbn [app Py.enumerate_from for_each saved_from]. unfold bind at 1.
    unfold save_page. cbn [fst snd].
    rewrite FsFacts.open_then_write
      by (apply CrawlFacts.can_write_page; auto; apply Hfree; cbn; lia).
    rewrite IH.
    + reflexivity.
    + exact Hdir.
    + cbn. rewrite lookup_insert_ne; [exact Hfile|].
      apply NameFacts.page_filename_ne_out.
    + intros i Hi. cbn. apply Hfree. cbn. lia.
    + replace (S k + length pre)%nat with (k + length (p0 :: pre))%nat
        by (cbn [length]; lia).
      exact Hblocked.
Qed.

(** X13: pages are written one after the other, and a failure does not
    undo what was written.  When the file name of the page at position
    [n] is taken by a directory and the names before it are free, the run
    ends with [IsADirectoryError]; the output directory has been made, the
    first [n] pages are on disk, the later ones are not written, and the
    closing report is not printed. *)
Theorem crawl_stops_at_blocked_page (ext : Externals) (argv : list string)
    (w : World) (url : string) (limit : Z) (out : string) (job : CrawlJob)
    (n : nat) :
  invoked ext argv w (NsCrawl url limit (Some out)) ->
  out <> EmptyString ->
  svc_crawl ext (w_env w !! "FIRECRAWL_API_KEY") (crawl_request url limit) = inr job ->
  Fs.can_mkdir w out = true ->
  (n < length (data job))%nat ->
  (forall i, (i < n)%nat -> page_filename out i ∉ w_dirs w) ->
  page_filename out n ∈ w_dirs w ->
  main ext argv w =
    (Raise IsADirectoryError,
     {| w_env := w_env w;
        w_files := saved_from out 0 (take n (data job)) (w_files w);
        w_dirs := dirs_with out (w_dirs w);
        w_stdout := w_stdout w; w_stderr := w_stderr w;
        w_net := w_net w ++ [crawl_request url limit] |}).
Proof.
  intros Hinv Hout Hsvc Hmk Hn Hfree Hblocked.
  assert (Hnofile : w_files w !! out = None).
  { unfold Fs.can_mkdir in Hmk. apply andb_true_iff in Hmk as [_ Hf].
    apply negb_true_iff, bool_decide_eq_false in Hf.
    destruct (w_files w !! out) eqn:E; [|reflexivity].
    exfalso. apply Hf. eauto. }
  destruct (lookup_lt_is_Some_2 (data job) n Hn) as [page Hpage].
  pose proof (take_drop_middle (data job) n page Hpage) as Hsplit.
  assert (Hlen : length (take n (data job)) = n)
    by (rewrite length_take; lia).
  rewrite (main_dispatch ext argv w _ Hinv). unfold dispatch. unfold bind at 1.
  rewrite (CrawlFacts.crawl_docs_run ext url limit w job Hsvc).
  destruct out as [|c out']; [congruence|].
  unfold bind at 1. rewrite CrawlFacts.mkdir_ok by exact Hmk.
  unfold bind at 1. unfold Py.enumerate. rewrite <- Hsplit at 1.
  rewrite save_stops_at_directory.
  - reflexivity.
  - apply CrawlFacts.elem_of_dirs_with. auto.
  - exact Hnofile.
  - intros i Hi. rewrite Hlen in Hi. cbn [w_dirs Fs.set_dirs].
    rewrite CrawlFacts.elem_of_dirs_with. intros [Hd | [Hp | Hne]].
    + revert Hd. apply Hfree. lia.
    + revert Hp. apply NameFacts.page_filename_not_parent.
    + revert Hne. apply NameFacts.page_filename_ne_out.
  - rewrite Hlen. apply CrawlFacts.elem_of_dirs_with. auto.
Qed.

Lemma crawl_stops_at_blocked_page_witness :
  let pages := [Demo.page (Some "A") None; Demo.page (Some "B") None;
                Demo.page (Some "C") None] in
  let ext := Demo.externals (Demo.shot "") {| web := None |} pages [] in
  let w := {| w_env := {[ "FIRECRAWL_API_KEY" := "fc-key" ]};
              w_files := ∅; w_dirs := {[ "docs/page_001.md" ]};
              w_stdout := ""; w_stderr := ""; w_net := [] |} in
  let r := main ext ["crawl"; "https://example.org"; "--output"; "docs"] w in
  fst r = Raise IsADirectoryError /\
  w_files (snd r) = {[ "docs/page_000.md" := [x41] ]} /\
  w_stdout (snd r) = "".
Proof.
  intros pages ext w r. subst r.
  assert (Hinv : invoked ext ["crawl"; "https://example.org"; "--output"; "docs"] w
                   (NsCrawl "https://example.org" 50 (Some "docs")))
    by (split; reflexivity).
  assert (Hne : "docs" <> EmptyString) by discriminate.
  assert (Hn : (1 < length (data {| data := pages |}))%nat) by (cbn; lia).
  assert (Hfree : forall i, (i < 1)%nat -> page_filename "docs" i ∉ w_dirs w).
  { intros i Hi. assert (i = 0%nat) as -> by lia.
    cbn. rewrite elem_of_singleton. discriminate. }
  assert (Hblocked : page_filename "docs" 1 ∈ w_dirs w).
  { change (page_filename "docs" 1 ∈ ({[ "docs/page_001.md" ]} : gset string)).
    now apply elem_of_singleton_2. }
  rewrite (crawl_stops_at_blocked_page ext _ w "https://example.org" 50 "docs"
             {| data := pages |} 1 Hinv Hne eq_refl eq_refl Hn Hfree Hblocked).
  repeat split.
Defined.

(** ** What the handlers never touch *)

Module Kept.

Lemma ret_kept {A} (a : A) : fs_kept (ret a).
Proof. intros w. split; reflexivity. Qed.

Lemma raise_kept {A} (e : exn) : fs_kept (@raise A e).
Proof. intros w. split; reflexivity. Qed.

Lemma sys_exit_kept {A} (c : Z) : fs_kept (@sys_exit A c).
Proof. intros w. split; reflexivity. Qed.

Lemma print_kept (s : string) : fs_kept (print s).
Proof. intros w. split; reflexivity. Qed.

Lemma eprint_kept (s : string) : fs_kept (eprint s).
Proof. intros w. split; reflexivity. Qed.

Lemma sent_kept (r : Request) : fs_kept (sent r).
Proof. intros w. split; reflexivity. Qed.

Lemma getenv_kept (name : string) : fs_kept (getenv name).
Proof. intros w. split; reflexivity. Qed.

Lemma read_text_kept (p : string) : fs_kept (Fs.read_text p).
Proof.
  intros w. unfold Fs.read_text.
  destruct (w_files w !! p); [|destruct (bool_decide (p ∈ w_dirs w))];
    split; reflexivity.
Qed.

Lemma bind_kept {A B} (m : M A) (k : A -> M B) :
  fs_kept m -> (forall a, fs_kept (k a)) -> fs_kept (bind m k).
Proof.
  intros Hm Hk w. unfold bind. specialize (Hm w).
  destruct (m w) as [[a | e | c] w']; cbn [snd] in Hm |- *; [|exact Hm..].
  destruct (Hk a w') as [Hf Hd]. destruct Hm as [Hf' Hd'].
  split; congruence.
Qed.

Lemma for_each_kept {A} (l : list A) (body : A -> M unit) :
  (forall a, fs_kept (body a)) -> fs_kept (for_each l body).
Proof.
  intros Hbody. induction l as [|a l IH]; cbn [for_each].
  - apply ret_kept.
  - apply bind_kept; [apply Hbody | intros _; exact IH].
Qed.

Lemma call_kept {A} (svc : option string -> Request -> exn + A)
    (app : option string) (r : Request) : fs_kept (call svc app r).
Proof.
  unfold call. apply bind_kept; [apply sent_kept|]. intros _.
  destruct (svc app r); [apply raise_kept | apply ret_kept].
Qed.

Lemma argparse_kept (ext : Externals) (argv : list string) :
  fs_kept (argparse ext argv).
Proof.
  intros w. unfold argparse. destruct (parse_args ext argv); split; reflexivity.
Qed.

Lemma print_result_kept (r : SearchResult) : fs_kept (print_result r).
Proof.
  unfold print_result. repeat (apply bind_kept; [apply print_kept | intros _]).
  apply print_kept.
Qed.

Lemma print_page_kept (page : Document) : fs_kept (print_page page).
Proof.
  unfold print_page. repeat (apply bind_kept; [apply print_kept | intros _]).
  apply print_kept.
Qed.

Lemma take_screenshot_kept (ext : Externals) (url : string) (output : option string) :
  Py.truthy output = false -> fs_kept (take_screenshot ext url output).
Proof.
  intros Hno. unfold take_screenshot, Firecrawl.
  apply bind_kept; [apply getenv_kept | intros app].
  apply bind_kept; [apply call_kept | intros result].
  destruct (screenshot result) as [s|]; [|apply raise_kept].
  destruct (Py.startswith s "http://" || Py.startswith s "https://").
  - destruct output as [[|c p]|]; try discriminate; apply ret_kept.
  - apply bind_kept.
    + destruct (Py.startswith s "data:image"); [|apply ret_kept].
      destruct (snd (Py.split_comma s)); [apply ret_kept | apply raise_kept].
    + intros payload.
      destruct output as [[|c p]|]; try discriminate; apply ret_kept.
Qed.

Lemma dispatch_kept (ext : Externals) (ns : Namespace) :
  writes_nothing ns = true -> fs_kept (dispatch ext ns).
Proof.
  intros Hro. destruct ns as [url m | url o | url sp pr | q l | url l o];
    cbn [writes_nothing] in Hro; unfold dispatch.
  - apply bind_kept; [|intros; apply print_kept].
    unfold scrape_markdown, Firecrawl.
    apply bind_kept; [apply getenv_kept | intros app].
    apply bind_kept; [apply call_kept | intros; apply ret_kept].
  - apply bind_kept; [|intros; apply print_kept].
    apply take_screenshot_kept. now apply negb_true_iff.
  - apply bind_kept; [apply read_text_kept | intros text].
    apply bind_kept.
    + destruct (json_loads ext text); [apply ret_kept | apply raise_kept].
    + intros schema. apply bind_kept; [|intros; apply print_kept].
      unfold extract_data, Firecrawl.
      apply bind_kept; [apply getenv_kept | intros app].
      apply bind_kept; [apply call_kept | intros; apply ret_kept].
  - apply bind_kept; [|intros; apply for_each_kept, print_result_kept].
    unfold search_web, Firecrawl.
    apply bind_kept; [apply getenv_kept | intros app].
    apply bind_kept; [apply call_kept | intros; apply ret_kept].
  - apply bind_kept.
    + unfold crawl_docs, Firecrawl.
      apply bind_kept; [apply getenv_kept | intros app].
      apply bind_kept; [apply call_kept | intros; apply ret_kept].
    + intros pages. apply negb_true_iff in Hro.
      destruct o as [[|c p]|]; try discriminate;
        apply for_each_kept, print_page_kept.
Qed.

End Kept.

(** X14: the markdown, extract and search subcommands, and the screenshot
    and crawl subcommands run without an output path, never create, change
    or remove a file or a directory, whatever the environment holds,
    whatever the service answers and however the run ends. *)
Theorem read_only_commands_keep_disk (ext : Externals) (argv : list string) (w : World) :
  match parse_args ext argv with
  | Parsed ns => writes_nothing ns
  | ParseExit _ _ _ => true
  end = true ->
  w_files (snd (main ext argv w)) = w_files w /\
  w_dirs (snd (main ext argv w)) = w_dirs w.
Proof.
  intros Hro. revert w. change (fs_kept (main ext argv)). unfold main.
  apply Kept.bind_kept; [apply Kept.getenv_kept | intros key].
  apply Kept.bind_kept.
  - destruct (negb (Py.truthy key)); [|apply Kept.ret_kept].
    apply Kept.bind_kept; [apply Kept.eprint_kept | intros _; apply Kept.sys_exit_kept].
  - intros _. intros w. unfold bind, argparse.
    destruct (parse_args ext argv) as [ns | code out err]; [|split; reflexivity].
    apply (Kept.dispatch_kept ext ns Hro).
Qed.

Lemma read_only_commands_keep_disk_witness :
  let ext := service_down (RemoteError "unavailable")
               (Demo.externals (Demo.shot "") {| web := None |} [] []) in
  let w := Demo.world (Some "fc-key") {[ "notes.txt" := [x41] ]} in
  w_files (snd (main ext ["search"; "provers"] w)) = w_files w /\
  w_dirs (snd (main ext ["search"; "provers"] w)) = w_dirs w.
Proof.
  intros ext w.
  exact (read_only_commands_keep_disk ext ["search"; "provers"] w eq_refl).
Defined.

(** ** File names and repeated crawls *)

(** X15: two pages never share a file: within one output directory the
    file names of two positions are equal only if the positions are,
    also beyond position 999 where the index grows past three digits. *)
Theorem page_files_never_collide (out : string) (i j : nat) :
  page_filename out i = page_filename out j <-> i = j.
Proof.
  split; [apply NameFacts.page_filename_inj | now intros ->].
Qed.

Lemma existsb_agree {A} (f g : A -> bool) (l : list A) :
  (forall a, In a l -> f a = g a) -> existsb f l = existsb g l.
Proof.
  induction l as [|a l IH]; intros H; [reflexivity|]. cbn [existsb].
  rewrite (H a (or_introl eq_refl)), IH; [reflexivity|].
  intros b Hb. apply H. now right.
Qed.

Lemma saved_from_fixed (out : string) (pages : list Document) :
  forall k g,
    (forall i page, pages !! i = Some page ->
       g !! page_filename out (k + i) = Some (page_bytes page)) ->
    saved_from out k pages g = g.
Proof.
  induction pages as [|p0 rest IH]; intros k g H; [reflexivity|].
  cbn [saved_from].
  assert (H0 : g !! page_filename out k = Some (page_bytes p0)).
  { specialize (H 0%nat p0 eq_refl). now rewrite Nat.add_0_r in H. }
  rewrite (insert_id g _ _ H0). apply IH.
  intros i page Hi. rewrite Nat.add_succ_comm. now apply (H (S i)).
Qed.

Lemma can_mkdir_after_save (w : World) (out : string) (pages : list Document)
    (d : gset string) :
  Fs.can_mkdir w out = true ->
  Fs.can_mkdir
    {| w_env := w_env w; w_files := saved_from out 0 pages (w_files w);
       w_dirs := d; w_stdout := w_stdout w; w_stderr := w_stderr w;
       w_net := w_net w |} out = true.
Proof.
  intros Hmk. rewrite <- Hmk. unfold Fs.can_mkdir, Fs.is_file. cbn [w_files].
  f_equal; f_equal.
  - apply existsb_agree. intros p Hp.
    rewrite CrawlFacts.saved_from_other; [reflexivity|].
    intros i _ ->. apply list_elem_of_In in Hp.
    revert Hp. apply NameFacts.page_filename_not_parent.
  - rewrite CrawlFacts.saved_from_other; [reflexivity|].
    intros i _ E. symmetry in E. revert E. apply NameFacts.page_filename_ne_out.
Qed.

(** X16: saving a crawl is repeatable.  Running the same invocation again
    on the disk the first run left, with the service returning the same
    pages, succeeds and leaves every file and directory as the first run
    left them: the directory is accepted as it is and each page file is
    overwritten with the same content. *)
Theorem crawl_rerun_keeps_disk (ext : Externals) (argv : list string) (w : World)
    (url : string) (limit : Z) (out : string) (job : CrawlJob) :
  invoked ext argv w (NsCrawl url limit (Some out)) ->
  out <> EmptyString ->
  svc_crawl ext (w_env w !! "FIRECRAWL_API_KEY") (crawl_request url limit) = inr job ->
  Fs.can_mkdir w out = true ->
  (forall i, (i < length (data job))%nat -> page_filename out i ∉ w_dirs w) ->
  let w1 := snd (main ext argv w) in
  fst (main ext argv w1) = Ret tt /\
  w_files (snd (main ext argv w1)) = w_files w1 /\
  w_dirs (snd (main ext argv w1)) = w_dirs w1.
Proof.
  intros Hinv Hout Hsvc Hmk Hfree. cbv zeta.
  rewrite (CrawlFacts.crawl_save_run ext argv w url limit out job
             Hinv Hout Hsvc Hmk Hfree). cbn [snd].
  match goal with |- context [main ext argv ?x] => set (w1 := x) end.
  assert (Hinv1 : invoked ext argv w1 (NsCrawl url limit (Some out))) by exact Hinv.
  assert (Hsvc1 : svc_crawl ext (w_env w1 !! "FIRECRAWL_API_KEY")
                    (crawl_request url limit) = inr job) by exact Hsvc.
  assert (Hmk1 : Fs.can_mkdir w1 out = true).
  { pose proof (can_mkdir_after_save w out (data job)
                  (dirs_with out (w_dirs w)) Hmk) as H.
    unfold Fs.can_mkdir, Fs.is_file in H |- *. exact H. }
  assert (Hfree1 : forall i, (i < length (data job))%nat ->
                             page_filename out i ∉ w_dirs w1).
  { intros i Hi. subst w1. cbn [w_dirs].
    rewrite CrawlFacts.elem_of_dirs_with. intros [Hd | [Hp | Hne]].
    - revert Hd. now apply Hfree.
    - revert Hp. apply NameFacts.page_filename_not_parent.
    - revert Hne. apply NameFacts.page_filename_ne_out. }
  rewrite (CrawlFacts.crawl_save_run ext argv w1 url limit out job
             Hinv1 Hout Hsvc1 Hmk1 Hfree1). cbn [fst snd w_files w_dirs].
  subst w1. cbn [w_files w_dirs]. split; [reflexivity|]. split.
  - apply saved_from_fixed. intros i page Hi.
    now apply CrawlFacts.saved_from_lookup.
  - apply set_eq. intros d. rewrite !CrawlFacts.elem_of_dirs_with. tauto.
Qed.

Lemma crawl_rerun_keeps_disk_witness :
  let pages := [Demo.page (Some "A") None; Demo.page None None] in
  let ext := Demo.externals (Demo.shot "") {| web := None |} pages [] in
  let argv := ["crawl"; "https://example.org"; "--output"; "site/docs"] in
  let w1 := snd (main ext argv (Demo.world (Some "fc-key") ∅)) in
  fst (main ext argv w1) = Ret tt /\
  w_files (snd (main ext argv w1)) = w_files w1 /\
  w_dirs (snd (main ext argv w1)) = w_dirs w1.
Proof.
  intros pages ext argv.
  assert (Hinv : invoked ext argv (Demo.world (Some "fc-key") ∅)
                   (NsCrawl "https://example.org" 50 (Some "site/docs")))
    by (split; reflexivity).
  assert (Hne : "site/docs" <> EmptyString) by discriminate.
  assert (Hfree : forall i, (i < length (data {| data := pages |}))%nat ->
                    page_filename "site/docs" i ∉ w_dirs (Demo.world (Some "fc-key") ∅))
    by (intros i _; apply not_elem_of_empty).
  exact (crawl_rerun_keeps_disk ext argv (Demo.world (Some "fc-key") ∅)
           "https://example.org" 50 "site/docs" {| data := pages |}
           Hinv Hne eq_refl eq_refl Hfree).
Defined.

(** ** How many requests a run sends *)

Module Budget.















End Budget.

